(** * Reddit discovery through the OpenAI Responses API: a verified model

    Shallow embedding of [scripts/lib/openai_reddit.py]: the depth
    profile and the request of [search_reddit], and the extraction and
    validation pipeline of [parse_reddit_response].

    - Python values are the JSON-compatible values a decoded response
      can hold ([pyval]); a dict is an association list in insertion
      order.
    - Exceptions are explicit ([result]); the diagnostics the parser
      writes are kept as a list of events beside its result.
    - Strings are Rocq strings whose characters stand for the code
      points U+0000..U+00FF; floats are IEEE 754 binary64 values
      ([spec_float] with precision 53 and maximal exponent 1024).
    - The built-ins the module calls ([re.search], [re.match],
      [json.loads], [float], [str], [strip], [lstrip]) are modelled as
      executable functions, so that every statement can be run on a
      concrete response.
    - The transport ([http.post], [http.DEBUG]) is outside the module
      and enters as a section variable.

    - The prompt is the template of the source, line by line;
      [str.format] is modelled for templates whose fields are plain
      keyword names, which is what the template uses.

    The definitions come first; the properties follow, each under a
    comment that names the claim it settles (C1 onwards) or, for a
    further property of the module, its number (X1 onwards). *)

From Stdlib Require Import ZArith List String Ascii Bool Lia Sorted.
From Stdlib Require Import SpecFloat Decimal DecimalString DecimalZ DecimalPos.
Import ListNotations.
Local Open Scope Z_scope.
Local Open Scope string_scope.

(* ================================================================== *)
(** * Exceptions *)
(* ================================================================== *)

Module Py.

Inductive exn : Type :=
| TypeError
| ValueError
| AttributeError
| KeyError
| OverflowError.

Inductive result (A : Type) : Type :=
| Ok (a : A)
| Raise (e : exn).

Arguments Ok {A} a.
Arguments Raise {A} e.

Definition bind {A B : Type} (c : result A) (k : A -> result B) : result B :=
  match c with
  | Ok a => k a
  | Raise e => Raise e
  end.

End Py.
Export Py.

Notation "x <- c ;; k" := (bind c (fun x => k))
  (at level 61, c at next level, right associativity).
Notation "' p <- c ;; k" := (bind c (fun x => let 'p := x in k))
  (at level 61, p pattern, c at next level, right associativity).

(* ================================================================== *)
(** * Python values *)
(* ================================================================== *)

(** The values [json.loads] can build.  A dict keeps its keys in
    insertion order; looking a key up takes its first binding. *)
Unset Elimination Schemes.
Inductive pyval : Type :=
| VNone
| VBool (b : bool)
| VInt (z : Z)
| VFloat (f : spec_float)
| VStr (s : string)
| VList (l : list pyval)
| VDict (d : list (string * pyval)).
Set Elimination Schemes.

Definition dict : Type := list (string * pyval).

(** ** binary64 *)

Definition prec : Z := 53.
Definition emax : Z := 1024.

Definition float_zero : spec_float := S754_zero false.          (* 0.0 *)
Definition float_one : spec_float := S754_finite false 4503599627370496 (-52).  (* 1.0 *)
Definition float_half : spec_float := S754_finite false 4503599627370496 (-53). (* 0.5 *)

Definition float_lt (x y : spec_float) : bool := SFltb x y.     (* x < y *)
Definition float_le (x y : spec_float) : bool := SFleb x y.     (* x <= y *)

(** ** Truth value testing: [bool(v)] *)
Definition truthy (v : pyval) : bool :=
  match v with
  | VNone => false
  | VBool b => b
  | VInt z => negb (z =? 0)%Z
  | VFloat f => negb (SFeqb f float_zero)
  | VStr s => negb (s =? "")%string
  | VList l => match l with [] => false | _ => true end
  | VDict d => match d with [] => false | _ => true end
  end.

(** ** [isinstance] *)
Definition is_dict (v : pyval) : bool :=
  match v with VDict _ => true | _ => false end.
Definition is_str (v : pyval) : bool :=
  match v with VStr _ => true | _ => false end.
Definition is_list (v : pyval) : bool :=
  match v with VList _ => true | _ => false end.

(** ** Dict operations *)

Fixpoint dict_lookup (k : string) (d : dict) : option pyval :=
  match d with
  | [] => None
  | (k', v) :: d' => if (k =? k')%string then Some v else dict_lookup k d'
  end.

(** [k in d] *)
Definition dict_mem (k : string) (d : dict) : bool :=
  match dict_lookup k d with Some _ => true | None => false end.

(** [d.get(k, dflt)] *)
Definition dict_get (k : string) (d : dict) (dflt : pyval) : pyval :=
  match dict_lookup k d with Some v => v | None => dflt end.

(** [d[k]] *)
Definition dict_index (k : string) (d : dict) : result pyval :=
  match dict_lookup k d with Some v => Ok v | None => Raise KeyError end.

(** [d[k] = v]: an existing key keeps its place. *)
Fixpoint dict_set (k : string) (v : pyval) (d : dict) : dict :=
  match d with
  | [] => [(k, v)]
  | (k', v') :: d' =>
      if (k =? k')%string then (k', v) :: d' else (k', v') :: dict_set k v d'
  end.

Definition dict_keys (d : dict) : list string := map fst d.

(** [v.get(k, dflt)] on a value of unknown type: only a dict has [get]. *)
Definition py_get (v : pyval) (k : string) (dflt : pyval) : result pyval :=
  match v with
  | VDict d => Ok (dict_get k d dflt)
  | _ => Raise AttributeError
  end.

(** [v[k]] with a string key. *)
Definition py_index (v : pyval) (k : string) : result pyval :=
  match v with
  | VDict d => dict_index k d
  | _ => Raise TypeError
  end.

(** [v == s] for a string [s]. *)
Definition py_eq_str (v : pyval) (s : string) : bool :=
  match v with
  | VStr s' => (s' =? s)%string
  | _ => false
  end.

(* ================================================================== *)
(** * Strings *)
(* ================================================================== *)

Definition chr (n : nat) : ascii := ascii_of_nat n.
Definition ord (c : ascii) : nat := nat_of_ascii c.

(** The double quote, and a helper to write JSON literals: [qq] turns
    every apostrophe of its argument into a double quote. *)
Definition dquote : ascii := "034"%char.
Definition squote : ascii := "039"%char.

Fixpoint qq (s : string) : string :=
  match s with
  | EmptyString => EmptyString
  | String c s' => String (if Ascii.eqb c squote then dquote else c) (qq s')
  end.

(** [str.isspace] on one character of the range U+0000..U+00FF. *)
Definition is_space (c : ascii) : bool :=
  let n := ord c in
  ((9 <=? n) && (n <=? 13) || (28 <=? n) && (n <=? 32)
   || (n =? 133) || (n =? 160))%nat.

Definition is_digit (c : ascii) : bool :=
  let n := ord c in ((48 <=? n) && (n <=? 57))%nat.

Fixpoint mem_char (c : ascii) (chars : string) : bool :=
  match chars with
  | EmptyString => false
  | String c' chars' => Ascii.eqb c c' || mem_char c chars'
  end.

Fixpoint all_chars (p : ascii -> bool) (s : string) : bool :=
  match s with
  | EmptyString => true
  | String c s' => p c && all_chars p s'
  end.

(** Drop the longest prefix whose characters satisfy [p]. *)
Fixpoint drop_while (p : ascii -> bool) (s : string) : string :=
  match s with
  | EmptyString => EmptyString
  | String c s' => if p c then drop_while p s' else s
  end.

(** Drop the longest suffix whose characters satisfy [p]. *)
Fixpoint drop_while_end (p : ascii -> bool) (s : string) : string :=
  match s with
  | EmptyString => EmptyString
  | String c s' =>
      match drop_while_end p s' with
      | EmptyString => if p c then EmptyString else String c EmptyString
      | r => String c r
      end
  end.

(** [s.strip()] *)
Definition strip (s : string) : string :=
  drop_while_end is_space (drop_while is_space s).

(** [s.lstrip(chars)]: [chars] is a set of characters, not a prefix. *)
Definition lstrip (chars : string) (s : string) : string :=
  drop_while (fun c => mem_char c chars) s.

(** [needle in hay] for two strings. *)
Fixpoint contains (needle hay : string) : bool :=
  String.prefix needle hay ||
  match hay with
  | EmptyString => false
  | String _ hay' => contains needle hay'
  end.

Definition starts_with (p s : string) : bool := String.prefix p s.

(** The characters of a string, as [for c in s] yields them. *)
Fixpoint chars_of (s : string) : list pyval :=
  match s with
  | EmptyString => []
  | String c s' => VStr (String c EmptyString) :: chars_of s'
  end.

(** [k in v] for a string [k]: substring of a string, element of a
    list, key of a dict; anything else is not a container. *)
Definition py_in (k : string) (v : pyval) : result bool :=
  match v with
  | VStr s => Ok (contains k s)
  | VList l => Ok (existsb (fun x => py_eq_str x k) l)
  | VDict d => Ok (dict_mem k d)
  | _ => Raise TypeError
  end.

(** [iter(v)], run to the end. *)
Definition py_iter (v : pyval) : result (list pyval) :=
  match v with
  | VList l => Ok l
  | VStr s => Ok (chars_of s)
  | VDict d => Ok (map VStr (dict_keys d))
  | _ => Raise TypeError
  end.

(* ================================================================== *)
(** * Depth profiles and the request of [search_reddit] *)
(* ================================================================== *)

Definition OPENAI_RESPONSES_URL : string := "https://api.openai.com/v1/responses".

(** Depth configurations: (min, max) threads to request. *)
Definition DEPTH_CONFIG : list (string * (Z * Z)) :=
  [ ("quick", (8, 12)); ("default", (20, 30)); ("deep", (50, 70)) ].

Fixpoint config_lookup (k : string) (cfg : list (string * (Z * Z))) : option (Z * Z) :=
  match cfg with
  | [] => None
  | (k', v) :: cfg' => if (k =? k')%string then Some v else config_lookup k cfg'
  end.

(** [cfg[k]] *)
Definition config_index (k : string) (cfg : list (string * (Z * Z))) : result (Z * Z) :=
  match config_lookup k cfg with Some v => Ok v | None => Raise KeyError end.

(** [cfg.get(k, dflt)] *)
Definition config_get (k : string) (cfg : list (string * (Z * Z))) (dflt : Z * Z) : Z * Z :=
  match config_lookup k cfg with Some v => v | None => dflt end.

(** [DEPTH_CONFIG.get(depth, DEPTH_CONFIG["default"])] *)
Definition depth_bounds (depth : string) : result (Z * Z) :=
  dflt <- config_index "default" DEPTH_CONFIG ;;
  Ok (config_get depth DEPTH_CONFIG dflt).

(** [60 if depth == "quick" else 90 if depth == "default" else 120] *)
Definition depth_timeout (depth : string) : Z :=
  if (depth =? "quick")%string then 60
  else if (depth =? "default")%string then 90
  else 120.

(** The arguments [REDDIT_SEARCH_PROMPT.format] puts into the template;
    the template text itself is fixed. *)
Record prompt : Type := Prompt {
  prompt_topic : string;
  prompt_from_date : string;
  prompt_to_date : string;
  prompt_min_items : Z;
  prompt_max_items : Z
}.

Record payload : Type := Payload {
  payload_model : string;
  payload_tool_type : string;
  payload_allowed_domains : list string;
  payload_include : list string;
  payload_input : prompt
}.

Section Search.

(** [http.post(url, payload, headers=..., timeout=...)]: the transport,
    outside this module. *)
Variable http_post :
  string -> payload -> list (string * string) -> Z -> result dict.

Definition search_reddit (api_key model topic from_date to_date depth : string)
    (mock_response : option dict) : result dict :=
  match mock_response with
  | Some mock => Ok mock
  | None =>
      '(min_items, max_items) <- depth_bounds depth ;;
      let headers :=
        [ ("Authorization", "Bearer " ++ api_key);
          ("Content-Type", "application/json") ] in
      let timeout := depth_timeout depth in
      let payload :=
        {| payload_model := model;
           payload_tool_type := "web_search";
           payload_allowed_domains := ["reddit.com"];
           payload_include := ["web_search_call.action.sources"];
           payload_input :=
             {| prompt_topic := topic;
                prompt_from_date := from_date;
                prompt_to_date := to_date;
                prompt_min_items := min_items;
                prompt_max_items := max_items |} |} in
      http_post OPENAI_RESPONSES_URL payload headers timeout
  end.

End Search.

(* ================================================================== *)
(** * Regular expressions *)
(* ================================================================== *)

(** The fragment of [re] the module uses: literals, character classes,
    a greedy star and a counted repetition of a class, sequencing and
    the two anchors.  Matching backtracks as [re] does: a star first
    takes as many characters as it can and gives them back one at a
    time. *)
Inductive regex : Type :=
| RLit (s : string)
| RClass (p : ascii -> bool)
| RStar (p : ascii -> bool)
| RRep (n : nat) (p : ascii -> bool)
| RSeq (r1 r2 : regex)
| RBol
| REol.

(** [\s], [\S], [\d] and the class [[\s\S]]. *)
Definition cls_s (c : ascii) : bool := is_space c.
Definition cls_S (c : ascii) : bool := negb (is_space c).
Definition cls_d (c : ascii) : bool := is_digit c.
Definition cls_sS (c : ascii) : bool := cls_s c || cls_S c.

Fixpoint match_lit (lit s : string) : option string :=
  match lit, s with
  | EmptyString, _ => Some s
  | String a lit', String b s' => if Ascii.eqb a b then match_lit lit' s' else None
  | String _ _, EmptyString => None
  end.

Fixpoint match_rep (n : nat) (p : ascii -> bool) (s : string) : option string :=
  match n, s with
  | O, _ => Some s
  | S n', String c s' => if p c then match_rep n' p s' else None
  | S _, EmptyString => None
  end.

Definition is_nonempty (s : string) : bool :=
  match s with EmptyString => false | String _ _ => true end.

(** [match_re r at0 s k]: match [r] at the head of [s] and hand what is
    left to [k]; [at0] tells whether [s] is the whole subject (for [^]).
    The answer is the text left after the whole match. *)
Fixpoint match_re (r : regex) (at0 : bool) (s : string)
    (k : bool -> string -> option string) : option string :=
  match r with
  | RLit lit =>
      match match_lit lit s with
      | Some rest => k (at0 && negb (is_nonempty lit)) rest
      | None => None
      end
  | RClass p =>
      match s with
      | String c s' => if p c then k false s' else None
      | EmptyString => None
      end
  | RStar p =>
      (fix star (at1 : bool) (t : string) {struct t} : option string :=
         match t with
         | String c t' =>
             if p c then
               match star false t' with
               | Some rest => Some rest
               | None => k at1 t
               end
             else k at1 t
         | EmptyString => k at1 t
         end) at0 s
  | RRep n p =>
      match match_rep n p s with
      | Some rest => k (at0 && Nat.eqb n 0) rest
      | None => None
      end
  | RSeq r1 r2 => match_re r1 at0 s (fun at1 s1 => match_re r2 at1 s1 k)
  | RBol => if at0 then k at0 s else None
  | REol =>
      (* end of the subject, or just before a newline that ends it *)
      match s with
      | EmptyString => k at0 s
      | String c EmptyString => if Ascii.eqb c "010"%char then k at0 s else None
      | _ => None
      end
  end.

Fixpoint take (n : nat) (s : string) : string :=
  match n, s with
  | S n', String c s' => String c (take n' s')
  | _, _ => EmptyString
  end.

Definition matched_text (s rest : string) : string :=
  take (String.length s - String.length rest) s.

(** [re.match(r, s)]: the matched text, if [r] matches at the start. *)
Definition re_match (r : regex) (s : string) : option string :=
  match match_re r true s (fun _ rest => Some rest) with
  | Some rest => Some (matched_text s rest)
  | None => None
  end.

Fixpoint search_from (r : regex) (at0 : bool) (s : string) : option string :=
  match match_re r at0 s (fun _ rest => Some rest) with
  | Some rest => Some (matched_text s rest)
  | None =>
      match s with
      | EmptyString => None
      | String _ s' => search_from r false s'
      end
  end.

(** [re.search(r, s)]: the text of the leftmost match ([.group()]). *)
Definition re_search (r : regex) (s : string) : option string :=
  search_from r true s.

(** [r'\{[\s\S]*"items"[\s\S]*\}'] *)
Definition ITEMS_RE : regex :=
  RSeq (RLit "{")
    (RSeq (RStar cls_sS)
       (RSeq (RLit (qq "'items'"))
          (RSeq (RStar cls_sS) (RLit "}")))).

(** [r'^\d{4}-\d{2}-\d{2}$'] *)
Definition DATE_RE : regex :=
  RSeq RBol
    (RSeq (RRep 4 cls_d)
       (RSeq (RLit "-")
          (RSeq (RRep 2 cls_d)
             (RSeq (RLit "-")
                (RSeq (RRep 2 cls_d) REol))))).

(* ================================================================== *)
(** * Numbers *)
(* ================================================================== *)

(** The nearest binary64 (ties to even) of [m * 10^e10], with the sign
    [neg]: what [float] and [json.loads] make of a decimal numeral. *)
Definition float_of_decimal (neg : bool) (m : Z) (e10 : Z) : spec_float :=
  match m with
  | Zpos _ =>
      if (0 <=? e10)%Z then
        binary_normalize prec emax (cond_Zopp neg (m * 10 ^ e10)%Z) 0 false
      else
        let '(q, e, l) := SFdiv_core_binary prec emax m 0 (10 ^ (- e10))%Z 0 in
        binary_round_aux prec emax neg q e l
  | _ => S754_zero neg
  end.

(** [float(n)] for an int. *)
Definition float_of_int (n : Z) : result spec_float :=
  match binary_normalize prec emax n 0 false with
  | S754_infinity _ => Raise OverflowError
  | f => Ok f
  end.

Definition digit_val (c : ascii) : Z := Z.of_nat (ord c - 48).

(** The digits after the first one of a [digitpart]; [us] allows one
    underscore between two digits.  [acc] is the value read so far and
    [cnt] the number of digits. *)
Fixpoint digits_tail (us : bool) (acc cnt : Z) (s : string) : Z * Z * string :=
  match s with
  | String c s' =>
      if is_digit c then digits_tail us (10 * acc + digit_val c)%Z (cnt + 1)%Z s'
      else if us && Ascii.eqb c "_"%char then
        match s' with
        | String d s'' =>
            if is_digit d
            then digits_tail us (10 * acc + digit_val d)%Z (cnt + 1)%Z s''
            else (acc, cnt, s)
        | EmptyString => (acc, cnt, s)
        end
      else (acc, cnt, s)
  | EmptyString => (acc, cnt, s)
  end.

Definition digit_part (us : bool) (acc cnt : Z) (s : string) : option (Z * Z * string) :=
  match s with
  | String c s' =>
      if is_digit c
      then Some (digits_tail us (10 * acc + digit_val c)%Z (cnt + 1)%Z s')
      else None
  | EmptyString => None
  end.

(** An optional sign; [plus] tells whether [+] is accepted. *)
Definition scan_sign (plus : bool) (s : string) : bool * string :=
  match s with
  | String c s' =>
      if Ascii.eqb c "-"%char then (true, s')
      else if plus && Ascii.eqb c "+"%char then (false, s')
      else (false, s)
  | EmptyString => (false, s)
  end.

(** [e] or [E], a sign and a [digitpart]; [Some None] when no exponent
    starts here, [None] when one starts and is malformed. *)
Definition scan_exponent (us : bool) (s : string) : option (option Z * string) :=
  match s with
  | String c s' =>
      if Ascii.eqb c "e"%char || Ascii.eqb c "E"%char then
        let '(neg, s1) := scan_sign true s' in
        match digit_part us 0 0 s1 with
        | Some (e, _, rest) => Some (Some (cond_Zopp neg e), rest)
        | None => None
        end
      else Some (None, s)
  | EmptyString => Some (None, s)
  end.

(** The numeral grammar of [float]:
    [digitpart ["." [digitpart]] [exponent] | "." digitpart [exponent]].
    The answer is the mantissa, the decimal exponent and what is left. *)
Definition scan_float (s : string) : option (Z * Z * string) :=
  let after_point (m : Z) (frac_needed : bool) (s1 : string) :=
    match digit_part true m 0 s1 with
    | Some (m', cnt, s2) => Some (m', cnt, s2)
    | None => if frac_needed then None else Some (m, 0%Z, s1)
    end in
  let with_exponent (r : option (Z * Z * string)) :=
    match r with
    | Some (m, cnt, s2) =>
        match scan_exponent true s2 with
        | Some (Some e, s3) => Some (m, (e - cnt)%Z, s3)
        | Some (None, s3) => Some (m, (- cnt)%Z, s3)
        | None => None
        end
    | None => None
    end in
  match digit_part true 0 0 s with
  | Some (m, _, String "." s1) => with_exponent (after_point m false s1)
  | Some (m, _, s1) => with_exponent (Some (m, 0%Z, s1))
  | None =>
      match s with
      | String "." s1 => with_exponent (after_point 0%Z true s1)
      | _ => None
      end
  end.

Definition lower_char (c : ascii) : ascii :=
  let n := ord c in
  if ((65 <=? n) && (n <=? 90))%nat then chr (n + 32) else c.

Fixpoint lower (s : string) : string :=
  match s with
  | EmptyString => EmptyString
  | String c s' => String (lower_char c) (lower s')
  end.

(** The blanks [float] ignores around a numeral: the ASCII blanks and,
    of the other [isspace] characters, those from U+007F on. *)
Definition is_float_space (c : ascii) : bool :=
  let n := ord c in
  ((9 <=? n) && (n <=? 13) || (n =? 32) || (n =? 133) || (n =? 160))%nat.

Definition float_strip (s : string) : string :=
  drop_while_end is_float_space (drop_while is_float_space s).

(** [float(s)] for a string. *)
Definition float_of_str (s : string) : result spec_float :=
  let '(neg, t) := scan_sign true (float_strip s) in
  let l := lower t in
  if (l =? "inf") || (l =? "infinity") then Ok (S754_infinity neg)
  else if (l =? "nan") then Ok S754_nan
  else
    match scan_float t with
    | Some (m, e10, EmptyString) => Ok (float_of_decimal neg m e10)
    | _ => Raise ValueError
    end.

(** [float(v)] *)
Definition py_float (v : pyval) : result spec_float :=
  match v with
  | VFloat f => Ok f
  | VInt n => float_of_int n
  | VBool b => Ok (if b then float_one else float_zero)
  | VStr s => float_of_str s
  | VNone | VList _ | VDict _ => Raise TypeError
  end.

(** [max(a, b)] and [min(a, b)] of two floats: the first argument stays
    unless the second is strictly greater (smaller). *)
Definition float_max (a b : spec_float) : spec_float :=
  if float_lt a b then b else a.
Definition float_min (a b : spec_float) : spec_float :=
  if float_lt b a then b else a.

(* ================================================================== *)
(** * [str] and [repr] *)
(* ================================================================== *)

(** [str(n)] for an int. *)
Definition str_of_int (n : Z) : string := NilZero.string_of_int (Z.to_int n).

(** ** [repr] of a float: the shortest numeral that reads back *)

Definition same_float (a b : spec_float) : bool :=
  match a, b with
  | S754_finite s m e, S754_finite s' m' e' =>
      Bool.eqb s s' && Pos.eqb m m' && Z.eqb e e'
  | _, _ => false
  end.

(** [10^k <= n / d] *)
Definition ge_pow10 (n d k : Z) : bool :=
  if (0 <=? k)%Z then (d * 10 ^ k <=? n)%Z else (d <=? n * 10 ^ (- k))%Z.

(** The least [k' >= k] with [n / d < 10^k']. *)
Fixpoint decimal_point (fuel : nat) (n d k : Z) : Z :=
  match fuel with
  | O => k
  | S fuel' => if ge_pow10 n d k then decimal_point fuel' n d (k + 1)%Z else k
  end.

(** The shortest digit string [c] (an integer of [p] digits or more)
    with [c * 10^(k - p)] reading back as [x = n / d]; of the two
    neighbours of [x] the nearer one is preferred. *)
Fixpoint shortest_digits (fuel : nat) (p : Z) (x : spec_float) (n d k : Z) : Z * Z :=
  let e := (p - k)%Z in
  let num := if (0 <=? e)%Z then (n * 10 ^ e)%Z else n in
  let den := if (0 <=? e)%Z then d else (d * 10 ^ (- e))%Z in
  let lo := (num / den)%Z in
  let r := (num mod den)%Z in
  let hi := (lo + 1)%Z in
  let reads_back c := same_float (float_of_decimal false c (k - p)%Z) x in
  let found :=
    if (r =? 0)%Z then Some lo
    else
      match reads_back lo, reads_back hi with
      | true, true =>
          match (2 * r ?= den)%Z with
          | Lt => Some lo
          | Gt => Some hi
          | Eq => Some (if Z.even lo then lo else hi)
          end
      | true, false => Some lo
      | false, true => Some hi
      | false, false => None
      end in
  match found, fuel with
  | Some c, _ => (c, (k - p)%Z)
  | None, S fuel' => shortest_digits fuel' (p + 1)%Z x n d k
  | None, O => (lo, (k - p)%Z)
  end.

Fixpoint zeros (n : nat) : string :=
  match n with
  | O => EmptyString
  | S n' => String "0" (zeros n')
  end.

Fixpoint drop (n : nat) (s : string) : string :=
  match n, s with
  | S n', String _ s' => drop n' s'
  | _, _ => s
  end.

(** The layout of [repr]: plain notation when the decimal point falls in
    [-4 < decpt <= 16], exponent notation otherwise. *)
Definition layout_float (digits : string) (decpt : Z) : string :=
  let n := Z.of_nat (String.length digits) in
  if ((-4 <? decpt) && (decpt <=? 16))%Z then
    if (decpt <=? 0)%Z then "0." ++ zeros (Z.to_nat (- decpt)) ++ digits
    else if (n <=? decpt)%Z then digits ++ zeros (Z.to_nat (decpt - n)) ++ ".0"
    else take (Z.to_nat decpt) digits ++ "." ++ drop (Z.to_nat decpt) digits
  else
    let e := (decpt - 1)%Z in
    let es := str_of_int (Z.abs e) in
    take 1 digits
    ++ (if (1 <? n)%Z then "." ++ drop 1 digits else "")
    ++ "e" ++ (if (e <? 0)%Z then "-" else "+")
    ++ (if (Z.abs e <? 10)%Z then "0" ++ es else es).

Definition repr_float (x : spec_float) : string :=
  match x with
  | S754_nan => "nan"
  | S754_infinity s => if s then "-inf" else "inf"
  | S754_zero s => if s then "-0.0" else "0.0"
  | S754_finite s m e =>
      let n := if (0 <=? e)%Z then (Zpos m * 2 ^ e)%Z else Zpos m in
      let d := if (0 <=? e)%Z then 1%Z else (2 ^ (- e))%Z in
      let k0 := (((Z.log2 n - Z.log2 d - 1) * 30103) / 100000 - 1)%Z in
      let k := decimal_point 8 n d k0 in
      let '(c, e10) := shortest_digits 17 1 (S754_finite false m e) n d k in
      let ds := str_of_int c in
      let decpt := (e10 + Z.of_nat (String.length ds))%Z in
      let ds' := drop_while_end (fun a => Ascii.eqb a "0"%char) ds in
      (if s then "-" else "") ++ layout_float ds' decpt
  end.

(** ** [repr] of a string *)

Definition hex_digit (n : nat) : ascii :=
  if (n <? 10)%nat then chr (48 + n) else chr (87 + n).

(** [str.isprintable] on one character of the range U+0000..U+00FF. *)
Definition is_printable (c : ascii) : bool :=
  let n := ord c in
  ((32 <=? n) && (n <=? 126) || (161 <=? n) && negb (n =? 173))%nat.

Fixpoint repr_chars (quote : ascii) (s : string) : string :=
  match s with
  | EmptyString => EmptyString
  | String c s' =>
      (if Ascii.eqb c quote || Ascii.eqb c "\"%char then String "\" (String c "")
       else if Ascii.eqb c "009"%char then "\t"
       else if Ascii.eqb c "010"%char then "\n"
       else if Ascii.eqb c "013"%char then "\r"
       else if is_printable c then String c ""
       else String "\" (String "x" (String (hex_digit (ord c / 16))
                                      (String (hex_digit (ord c mod 16)) ""))))
      ++ repr_chars quote s'
  end.

Definition repr_str (s : string) : string :=
  let quote :=
    if mem_char squote s && negb (mem_char dquote s) then dquote else squote in
  String quote (repr_chars quote s) ++ String quote "".

Fixpoint join (sep : string) (l : list string) : string :=
  match l with
  | [] => ""
  | [x] => x
  | x :: l' => x ++ sep ++ join sep l'
  end.

(** [repr(v)] *)
Fixpoint py_repr (v : pyval) : string :=
  match v with
  | VNone => "None"
  | VBool b => if b then "True" else "False"
  | VInt n => str_of_int n
  | VFloat f => repr_float f
  | VStr s => repr_str s
  | VList l => "[" ++ join ", " (map py_repr l) ++ "]"
  | VDict d =>
      "{" ++ join ", " (map (fun kv => repr_str (fst kv) ++ ": " ++ py_repr (snd kv)) d)
      ++ "}"
  end.

(** [str(v)] *)
Definition py_str (v : pyval) : string :=
  match v with
  | VStr s => s
  | _ => py_repr v
  end.

(* ================================================================== *)
(** * [json.loads] *)
(* ================================================================== *)

Definition is_json_ws (c : ascii) : bool :=
  let n := ord c in ((n =? 32) || (n =? 9) || (n =? 10) || (n =? 13))%nat.

Definition skip_ws (s : string) : string := drop_while is_json_ws s.

Definition hex_val (c : ascii) : option nat :=
  let n := ord c in
  if ((48 <=? n) && (n <=? 57))%nat then Some (n - 48)%nat
  else if ((97 <=? n) && (n <=? 102))%nat then Some (n - 87)%nat
  else if ((65 <=? n) && (n <=? 70))%nat then Some (n - 55)%nat
  else None.

(** The code point of a [\uXXXX] escape, when it lies in the modelled
    range U+0000..U+00FF. *)
Definition unicode_escape (h1 h2 h3 h4 : ascii) : option ascii :=
  match hex_val h1, hex_val h2, hex_val h3, hex_val h4 with
  | Some 0%nat, Some 0%nat, Some a, Some b => Some (chr (16 * a + b))
  | _, _, _, _ => None
  end.

Definition simple_escape (e : ascii) : option ascii :=
  if Ascii.eqb e dquote then Some dquote
  else if Ascii.eqb e "\"%char then Some "\"%char
  else if Ascii.eqb e "/"%char then Some "/"%char
  else if Ascii.eqb e "b"%char then Some "008"%char
  else if Ascii.eqb e "f"%char then Some "012"%char
  else if Ascii.eqb e "n"%char then Some "010"%char
  else if Ascii.eqb e "r"%char then Some "013"%char
  else if Ascii.eqb e "t"%char then Some "009"%char
  else None.

(** A string literal after its opening quote: its value and the text
    after the closing quote.  Control characters are refused, as the
    default strict mode does. *)
Fixpoint scan_string (s : string) : option (string * string) :=
  match s with
  | EmptyString => None
  | String c s' =>
      if Ascii.eqb c dquote then Some (EmptyString, s')
      else if Ascii.eqb c "\"%char then
        match s' with
        | String e s'' =>
            if Ascii.eqb e "u"%char then
              match s'' with
              | String h1 (String h2 (String h3 (String h4 s5))) =>
                  match unicode_escape h1 h2 h3 h4, scan_string s5 with
                  | Some u, Some (v, rest) => Some (String u v, rest)
                  | _, _ => None
                  end
              | _ => None
              end
            else
              match simple_escape e, scan_string s'' with
              | Some u, Some (v, rest) => Some (String u v, rest)
              | _, _ => None
              end
        | EmptyString => None
        end
      else if (ord c <? 32)%nat then None
      else
        match scan_string s' with
        | Some (v, rest) => Some (String c v, rest)
        | None => None
        end
  end.

(** The integer part of a JSON number: [0], or a digit that is not
    [0] and more digits. *)
Definition scan_int_part (s : string) : option (Z * string) :=
  match s with
  | String c s1 =>
      if Ascii.eqb c "0"%char then Some (0%Z, s1)
      else if is_digit c then
        let '(m, _, s2) := digits_tail false (digit_val c) 1 s1 in Some (m, s2)
      else None
  | EmptyString => None
  end.

(** The fraction of a JSON number, a point and one digit or more: the
    mantissa [m] extended by these digits, and their number. *)
Definition scan_fraction (m : Z) (s : string) : option (Z * Z * string) :=
  match s with
  | String c t => if Ascii.eqb c "."%char then digit_part false m 0 t else None
  | EmptyString => None
  end.

(** A JSON number: an optional minus sign, an integer part, an optional
    fraction and an optional exponent.  It is an int when neither a
    fraction nor an exponent is present, a float otherwise. *)
Definition scan_number (s : string) : option (pyval * string) :=
  let '(neg, s0) := scan_sign false s in
  match scan_int_part s0 with
  | None => None
  | Some (m, s1) =>
      let '(m1, cnt, s2, has_frac) :=
        match scan_fraction m s1 with
        | Some (m', cnt, t) => (m', cnt, t, true)
        | None => (m, 0%Z, s1, false)
        end in
      match scan_exponent false s2 with
      | Some (Some e, s3) => Some (VFloat (float_of_decimal neg m1 (e - cnt)), s3)
      | _ =>
          if has_frac then Some (VFloat (float_of_decimal neg m1 (- cnt)), s2)
          else Some (VInt (cond_Zopp neg m1), s2)
      end
  end.

Definition scan_word (w : string) (v : pyval) (s : string) : option (pyval * string) :=
  match match_lit w s with
  | Some rest => Some (v, rest)
  | None => None
  end.

Definition first_of {A : Type} (a b : option A) : option A :=
  match a with Some _ => a | None => b end.

(** A scalar that is not a string: [null], [true], [false], a number,
    and the three extensions [NaN], [Infinity], [-Infinity]. *)
Definition scan_scalar (s : string) : option (pyval * string) :=
  first_of (scan_word "null" VNone s)
  (first_of (scan_word "true" (VBool true) s)
  (first_of (scan_word "false" (VBool false) s)
  (first_of (scan_number s)
  (first_of (scan_word "NaN" (VFloat S754_nan) s)
  (first_of (scan_word "Infinity" (VFloat (S754_infinity false)) s)
            (scan_word "-Infinity" (VFloat (S754_infinity true)) s)))))).

(** The recursive descent of the decoder.  [json_elements] reads the
    elements of an array from the first character of an element on,
    [json_members] the members of an object from the opening quote of
    a key on.  Every call consumes a character before it descends two
    levels, so twice the length of the text is fuel enough
    ([json_loads_fuel] below). *)
Fixpoint json_value (fuel : nat) (s : string) : option (pyval * string) :=
  match fuel with
  | O => None
  | S fuel' =>
      match s with
      | String c s' =>
          if Ascii.eqb c dquote then
            match scan_string s' with
            | Some (v, rest) => Some (VStr v, rest)
            | None => None
            end
          else if Ascii.eqb c "{"%char then
            match skip_ws s' with
            | String d t =>
                if Ascii.eqb d "}"%char then Some (VDict [], t)
                else json_members fuel' (String d t) []
            | EmptyString => None
            end
          else if Ascii.eqb c "["%char then
            match skip_ws s' with
            | String d t =>
                if Ascii.eqb d "]"%char then Some (VList [], t)
                else json_elements fuel' (String d t) []
            | EmptyString => None
            end
          else scan_scalar s
      | EmptyString => None
      end
  end

with json_elements (fuel : nat) (s : string) (acc : list pyval)
    : option (pyval * string) :=
  match fuel with
  | O => None
  | S fuel' =>
      match json_value fuel' s with
      | Some (v, rest) =>
          match skip_ws rest with
          | String d t =>
              if Ascii.eqb d "]"%char then Some (VList (acc ++ [v])%list, t)
              else if Ascii.eqb d ","%char
              then json_elements fuel' (skip_ws t) (acc ++ [v])%list
              else None
          | EmptyString => None
          end
      | None => None
      end
  end

with json_members (fuel : nat) (s : string) (acc : dict)
    : option (pyval * string) :=
  match fuel with
  | O => None
  | S fuel' =>
      match s with
      | String q s' =>
          if Ascii.eqb q dquote then
            match scan_string s' with
            | Some (key, rest) =>
                match skip_ws rest with
                | String colon t =>
                    if Ascii.eqb colon ":"%char then
                      match json_value fuel' (skip_ws t) with
                      | Some (v, rest') =>
                          match skip_ws rest' with
                          | String d t' =>
                              if Ascii.eqb d "}"%char
                              then Some (VDict (dict_set key v acc), t')
                              else if Ascii.eqb d ","%char
                              then json_members fuel' (skip_ws t') (dict_set key v acc)
                              else None
                          | EmptyString => None
                          end
                      | None => None
                      end
                    else None
                | EmptyString => None
                end
            | None => None
            end
          else None
      | EmptyString => None
      end
  end.

(** [json.loads(s)]; [None] stands for [json.JSONDecodeError]. *)
Definition json_loads (s : string) : option pyval :=
  match json_value (2 * String.length s + 2) (skip_ws s) with
  | Some (v, rest) =>
      match skip_ws rest with
      | EmptyString => Some v
      | String _ _ => None
      end
  | None => None
  end.

(* ================================================================== *)
(** * [parse_reddit_response] *)
(* ================================================================== *)

(** One cleaned item: the dict built for every entry that is kept. *)
Record clean_item : Type := CleanItem {
  item_id : string;
  item_title : string;
  item_url : pyval;
  item_subreddit : string;
  item_date : pyval;
  item_why_relevant : string;
  item_relevance : spec_float
}.

(** The dict a [clean_item] stands for, keys in insertion order. *)
Definition to_dict (c : clean_item) : pyval :=
  VDict [ ("id", VStr (item_id c));
          ("title", VStr (item_title c));
          ("url", item_url c);
          ("subreddit", VStr (item_subreddit c));
          ("date", item_date c);
          ("why_relevant", VStr (item_why_relevant c));
          ("relevance", VFloat (item_relevance c)) ].

(** What the parser writes beside its result. *)
Inductive event : Type :=
| ApiErrorLogged (err_msg : string)
    (* stderr: [REDDIT ERROR] OpenAI API error: {err_msg} *)
| FullErrorLogged (response : dict)
    (* stderr: the first 1000 characters of the indented dump of the response *)
| NoOutputTextWarned (keys : list string).
    (* stdout: [REDDIT WARNING] No output text found ... Keys present: {keys} *)

(** ** Text extraction *)

(** The inner loop over the content of a message: the first mapping of
    type [output_text] gives the text and ends the loop. *)
Fixpoint scan_content (content : list pyval) (output_text : pyval) : pyval :=
  match content with
  | [] => output_text
  | c :: content' =>
      match c with
      | VDict d =>
          if py_eq_str (dict_get "type" d VNone) "output_text"
          then dict_get "text" d (VStr "")
          else scan_content content' output_text
      | _ => scan_content content' output_text
      end
  end.

(** One entry of a list-valued output: the value of [output_text] after
    the body of the loop. *)
Definition scan_entry (item : pyval) (output_text : pyval) : result pyval :=
  match item with
  | VDict d =>
      if py_eq_str (dict_get "type" d VNone) "message" then
        content <- py_iter (dict_get "content" d (VList [])) ;;
        Ok (scan_content content output_text)
      else if dict_mem "text" d then dict_index "text" d
      else Ok output_text
  | VStr _ => Ok item
  | _ => Ok output_text
  end.

(** The loop over a list-valued output; it ends at the first entry that
    leaves a true [output_text]. *)
Fixpoint scan_output (output : list pyval) (output_text : pyval) : result pyval :=
  match output with
  | [] => Ok output_text
  | item :: output' =>
      text <- scan_entry item output_text ;;
      if truthy text then Ok text else scan_output output' text
  end.

(** The loop over [choices]: the first choice that has a [message]
    gives the text and ends the loop. *)
Fixpoint scan_choices (choices : list pyval) (output_text : pyval) : result pyval :=
  match choices with
  | [] => Ok output_text
  | choice :: choices' =>
      has_message <- py_in "message" choice ;;
      if has_message then
        message <- py_index choice "message" ;;
        py_get message "content" (VStr "")
      else scan_choices choices' output_text
  end.

(** The text found under [output]. *)
Definition output_text_of_output (response : dict) : result pyval :=
  if dict_mem "output" response then
    match dict_get "output" response VNone with
    | VStr s => Ok (VStr s)
    | VList l => scan_output l (VStr "")
    | _ => Ok (VStr "")
    end
  else Ok (VStr "").

(** The text found under [output], or else under [choices]. *)
Definition find_output_text (response : dict) : result pyval :=
  output_text <- output_text_of_output response ;;
  if negb (truthy output_text) && dict_mem "choices" response then
    choices <- py_iter (dict_get "choices" response VNone) ;;
    scan_choices choices output_text
  else Ok output_text.

(** ** The embedded JSON *)

(** [re.search] wants a string. *)
Definition search_items (output_text : pyval) : result (option string) :=
  match output_text with
  | VStr s => Ok (re_search ITEMS_RE s)
  | _ => Raise TypeError
  end.

(** The value of [items] after the [try] block. *)
Definition extract_items (output_text : pyval) : result pyval :=
  json_match <- search_items output_text ;;
  match json_match with
  | Some text =>
      match json_loads text with
      | Some data => py_get data "items" (VList [])
      | None => Ok (VList [])
      end
  | None => Ok (VList [])
  end.

(** ** Validation *)

(** [min(1.0, max(0.0, x))] *)
Definition clamp (x : spec_float) : spec_float :=
  float_min float_one (float_max float_zero x).

Definition date_matches (d : pyval) : bool :=
  match re_match DATE_RE (py_str d) with Some _ => true | None => false end.

(** The date check after the dict is built. *)
Definition validate_date (d : pyval) : pyval :=
  if truthy d then (if date_matches d then d else VNone) else d.

(** [f"R{i+1}"] *)
Definition make_id (i : nat) : string := "R" ++ str_of_int (Z.of_nat i + 1).

(** The body of the validation loop for entry [i]: [None] when the
    entry is skipped, the cleaned item when it is kept. *)
Definition clean_entry (i : nat) (item : pyval) : result (option clean_item) :=
  match item with
  | VDict d =>
      let url := dict_get "url" d (VStr "") in
      if negb (truthy url) then Ok None
      else
        has_domain <- py_in "reddit.com" url ;;
        if negb has_domain then Ok None
        else
          relevance <- py_float (dict_get "relevance" d (VFloat float_half)) ;;
          Ok (Some
            {| item_id := make_id i;
               item_title := strip (py_str (dict_get "title" d (VStr "")));
               item_url := url;
               item_subreddit :=
                 lstrip "r/" (strip (py_str (dict_get "subreddit" d (VStr ""))));
               item_date := validate_date (dict_get "date" d VNone);
               item_why_relevant :=
                 strip (py_str (dict_get "why_relevant" d (VStr "")));
               item_relevance := clamp relevance |})
  | _ => Ok None
  end.

(** [for i, item in enumerate(items)] from index [i] on; kept items are
    appended in the order they are met. *)
Fixpoint clean_loop (i : nat) (items : list pyval) : result (list clean_item) :=
  match items with
  | [] => Ok []
  | item :: items' =>
      kept <- clean_entry i item ;;
      rest <- clean_loop (S i) items' ;;
      Ok (match kept with Some c => c :: rest | None => rest end)
  end.

Definition clean_items (items : pyval) : result (list clean_item) :=
  entries <- py_iter items ;;
  clean_loop 0 entries.

(** ** The parser *)

(** [error.get("message", str(error)) if isinstance(error, dict) else
    str(error)], as the f-string prints it. *)
Definition error_message (error : pyval) : string :=
  py_str
    match error with
    | VDict e => dict_get "message" e (VStr (py_str error))
    | _ => VStr (py_str error)
    end.

Section Parser.

(** [http.DEBUG], a flag of the transport module. *)
Variable DEBUG : bool.

Definition parse_reddit_response (response : dict)
    : list event * result (list clean_item) :=
  if dict_mem "error" response && truthy (dict_get "error" response VNone) then
    let error := dict_get "error" response VNone in
    (ApiErrorLogged (error_message error)
       :: (if DEBUG then [FullErrorLogged response] else []),
     Ok [])
  else
    match find_output_text response with
    | Raise e => ([], Raise e)
    | Ok output_text =>
        if negb (truthy output_text)
        then ([NoOutputTextWarned (dict_keys response)], Ok [])
        else ([], items <- extract_items output_text ;; clean_items items)
    end.

End Parser.

(** The list a call returns, when it returns. *)
Definition parsed (DEBUG : bool) (response : dict) : result (list clean_item) :=
  snd (parse_reddit_response DEBUG response).

(* ================================================================== *)
(** * [json.dumps] and the re-embedding of a result *)
(* ================================================================== *)

Definition hex4 (n : nat) : string :=
  String (hex_digit (n / 4096))
    (String (hex_digit ((n / 256) mod 16))
       (String (hex_digit ((n / 16) mod 16))
          (String (hex_digit (n mod 16)) ""))).

(** The escapes of the default [ensure_ascii] encoder. *)
Fixpoint dumps_chars (s : string) : string :=
  match s with
  | EmptyString => EmptyString
  | String c s' =>
      (if Ascii.eqb c dquote then String "\" (String dquote "")
       else if Ascii.eqb c "\"%char then "\\"
       else if Ascii.eqb c "010"%char then "\n"
       else if Ascii.eqb c "013"%char then "\r"
       else if Ascii.eqb c "009"%char then "\t"
       else if Ascii.eqb c "012"%char then "\f"
       else if Ascii.eqb c "008"%char then "\b"
       else if ((32 <=? ord c) && (ord c <=? 126))%nat then String c ""
       else "\u" ++ hex4 (ord c))
      ++ dumps_chars s'
  end.

Definition dumps_str (s : string) : string :=
  String dquote (dumps_chars s) ++ String dquote "".

Definition dumps_float (f : spec_float) : string :=
  match f with
  | S754_nan => "NaN"
  | S754_infinity s => if s then "-Infinity" else "Infinity"
  | _ => repr_float f
  end.

(** [json.dumps(v)] with the default separators. *)
Fixpoint json_dumps (v : pyval) : string :=
  match v with
  | VNone => "null"
  | VBool b => if b then "true" else "false"
  | VInt n => str_of_int n
  | VFloat f => dumps_float f
  | VStr s => dumps_str s
  | VList l => "[" ++ join ", " (map json_dumps l) ++ "]"
  | VDict d =>
      "{" ++ join ", " (map (fun kv => dumps_str (fst kv) ++ ": " ++ json_dumps (snd kv)) d)
      ++ "}"
  end.

(** The synthetic response that carries an already parsed list back:
    [{"output": json.dumps({"items": out})}]. *)
Definition items_value (out : list clean_item) : pyval := VList (map to_dict out).

Definition reembed (out : list clean_item) : dict :=
  [ ("output", VStr (json_dumps (VDict [("items", items_value out)]))) ].

(* ================================================================== *)
(** * The properties, as the specification words them *)
(* ================================================================== *)

(** [0.0 <= relevance <= 1.0] *)
Definition relevance_in_range (c : clean_item) : Prop :=
  float_le float_zero (item_relevance c) = true
  /\ float_le (item_relevance c) float_one = true.

(** The url is a string that has [reddit.com] as a substring. *)
Definition url_has_domain (c : clean_item) : Prop :=
  exists s, item_url c = VStr s /\ contains "reddit.com" s = true.

(** A date that is not null matches [YYYY-MM-DD]. *)
Definition date_well_formed (c : clean_item) : Prop :=
  item_date c <> VNone -> date_matches (item_date c) = true.

(** The six normalized fields of two items agree. *)
Definition same_fields (c c' : clean_item) : Prop :=
  item_title c' = item_title c
  /\ item_url c' = item_url c
  /\ item_subreddit c' = item_subreddit c
  /\ item_date c' = item_date c
  /\ item_why_relevant c' = item_why_relevant c
  /\ item_relevance c' = item_relevance c.

(** The same, the subreddit left aside. *)
Definition same_fields_but_subreddit (c c' : clean_item) : Prop :=
  item_title c' = item_title c
  /\ item_url c' = item_url c
  /\ item_date c' = item_date c
  /\ item_why_relevant c' = item_why_relevant c
  /\ item_relevance c' = item_relevance c.

(** The legacy shape read as "the first choice's [message.content]". *)
Definition first_choice_content (choices : list pyval) : result pyval :=
  match choices with
  | choice :: _ =>
      message <- py_index choice "message" ;;
      py_get message "content" (VStr "")
  | [] => Ok (VStr "")
  end.

(** What one entry of a list-valued output offers as text, if anything:
    for a message the text of its first content entry of type
    [output_text], for another mapping its [text] field, for a plain
    string the string itself. *)
Fixpoint content_text (content : list pyval) : option pyval :=
  match content with
  | [] => None
  | VDict d :: content' =>
      if py_eq_str (dict_get "type" d VNone) "output_text"
      then Some (dict_get "text" d (VStr ""))
      else content_text content'
  | _ :: content' => content_text content'
  end.

Definition entry_text (item : pyval) : result (option pyval) :=
  match item with
  | VDict d =>
      if py_eq_str (dict_get "type" d VNone) "message" then
        content <- py_iter (dict_get "content" d (VList [])) ;;
        Ok (content_text content)
      else Ok (dict_lookup "text" d)
  | VStr _ => Ok (Some item)
  | _ => Ok None
  end.

(** The text after an entry was looked at: what it offers, or else the
    text found before. *)
Definition or_previous (o : option pyval) (previous : pyval) : pyval :=
  match o with Some t => t | None => previous end.

(** An entry that offers no text, or a false one. *)
Definition offers_nothing (item : pyval) : Prop :=
  exists o, entry_text item = Ok o /\ forall t, o = Some t -> truthy t = false.

(** A choice without a [message]. *)
Definition lacks_message (choice : pyval) : Prop :=
  py_in "message" choice = Ok false.

(** [text] carries the list [out] back: the object the search carves
    out of it decodes to a mapping whose [items] is that list, as the
    serialization of [{"items": out}] does. *)
Definition reembeds (text : string) (out : list clean_item) : Prop :=
  exists t data,
    re_search ITEMS_RE text = Some t
    /\ json_loads t = Some data
    /\ py_get data "items" (VList []) = Ok (items_value out).

(** The normalization of the fields, applied once more. *)
Definition renormalized (c c' : clean_item) : Prop :=
  same_fields_but_subreddit c c'
  /\ item_subreddit c' = lstrip "r/" (strip (item_subreddit c))
  /\ (drop_while is_space (item_subreddit c) = item_subreddit c ->
      item_subreddit c' = item_subreddit c).

(** The item with its date replaced. *)
Definition with_date (c : clean_item) (d : pyval) : clean_item :=
  {| item_id := item_id c;
     item_title := item_title c;
     item_url := item_url c;
     item_subreddit := item_subreddit c;
     item_date := d;
     item_why_relevant := item_why_relevant c;
     item_relevance := item_relevance c |}.

(** An entry the validation loop skips without an error: it is not a
    mapping, or its url is missing, false or without [reddit.com]. *)
Definition skipped (item : pyval) : Prop :=
  match item with
  | VDict d =>
      truthy (dict_get "url" d (VStr "")) = false
      \/ py_in "reddit.com" (dict_get "url" d (VStr "")) = Ok false
  | _ => True
  end.

(** Item [c] was made from entry [j] of a list whose first entry has
    index [i]. *)
Definition made_from (entries : list pyval) (i j : nat) (c : clean_item) : Prop :=
  (i <= j)%nat
  /\ item_id c = "R" ++ str_of_int (Z.of_nat j + 1)
  /\ exists item,
       nth_error entries (j - i) = Some item
       /\ clean_entry j item = Ok (Some c).

(** A string the date pattern accepts. *)
Definition date_shaped (s : string) : Prop :=
  exists y1 y2 y3 y4 m1 m2 d1 d2 tail,
    s = String y1 (String y2 (String y3 (String y4 (String "-"
          (String m1 (String m2 (String "-" (String d1 (String d2 tail)))))))))
    /\ is_digit y1 = true /\ is_digit y2 = true /\ is_digit y3 = true
    /\ is_digit y4 = true /\ is_digit m1 = true /\ is_digit m2 = true
    /\ is_digit d1 = true /\ is_digit d2 = true
    /\ (tail = "" \/ tail = String "010" "").

(** ** Inputs used below *)

Definition scenario_text : string :=
  qq "noise {'items':[{'title':'T','url':'https://reddit.com/r/x/comments/1/t/','relevance':1.7}]} trailing".

Definition scenario_response : dict := [ ("output", VStr scenario_text) ].

Definition rate_limited_response : dict :=
  [ ("error", VDict [("message", VStr "rate limited")]);
    ("output", VList [VDict [("text", VInt 5)]]);
    ("choices", VInt 5) ].

(** [{"output": "{\"items\":[{\"url\":\"https://reddit.com/r/x\",\"relevance\":\"high\"}]}"}] *)
Definition non_numeric_relevance_response : dict :=
  [ ("output", VStr (qq "{'items':[{'url':'https://reddit.com/r/x','relevance':'high'}]}")) ].

(** [{"output": "{\"items\":[{\"url\":\"https://reddit.com/r/x\",\"relevance\":null}]}"}] *)
Definition null_relevance_response : dict :=
  [ ("output", VStr (qq "{'items':[{'url':'https://reddit.com/r/x','relevance':null}]}")) ].

(** [{"choices": [5]}] *)
Definition malformed_choices_response : dict :=
  [ ("choices", VList [VInt 5]) ].

(** [{"output": [{"text": 5}]}] *)
Definition non_string_text_response : dict :=
  [ ("output", VList [VDict [("text", VInt 5)]]) ].

(** [{"output": "{\"items\":[{\"url\":[\"reddit.com\"]}]}"}] *)
Definition list_url_response : dict :=
  [ ("output", VStr (qq "{'items':[{'url':['reddit.com']}]}")) ].

(** [{"output": "{\"items\":[{\"url\":\"https://reddit.com/r/x\",\"date\":\"\"}]}"}] *)
Definition empty_date_response : dict :=
  [ ("output", VStr (qq "{'items':[{'url':'https://reddit.com/r/x','date':''}]}")) ].

(** [{"output": "{\"items\":[{\"url\":\"https://reddit.com/r/x\",\"subreddit\":\"r/ rust\"}]}"}] *)
Definition spaced_subreddit_response : dict :=
  [ ("output", VStr (qq "{'items':[{'url':'https://reddit.com/r/x','subreddit':'r/ rust'}]}")) ].

(** [{"output": "{\"items\":[{\"url\":\"https://reddit.com/r/rust\",\"subreddit\":\"rust\"}]}"}] *)
Definition rust_response : dict :=
  [ ("output", VStr (qq "{'items':[{'url':'https://reddit.com/r/rust','subreddit':'rust'}]}")) ].

(** [{"choices": [{}, {"message": {"content": "hi"}}]}] *)
Definition second_choice_response : dict :=
  [ ("choices", VList [VDict []; VDict [("message", VDict [("content", VStr "hi")])]]) ].

(** Entries 1, 3 and 4 of five are skipped. *)
Definition ranked_items : pyval :=
  VList [ VInt 3;
          VDict [("url", VStr "https://reddit.com/r/a")];
          VDict [("url", VStr "https://example.com/")];
          VStr "reddit.com";
          VDict [("url", VStr "https://reddit.com/r/b"); ("date", VStr "2024-1-1")] ].

(* ================================================================== *)
(** * Further notions used by the properties *)
(* ================================================================== *)

Definition first_char (s : string) : option ascii :=
  match s with
  | EmptyString => None
  | String c _ => Some c
  end.

Fixpoint last_char (s : string) : option ascii :=
  match s with
  | EmptyString => None
  | String c EmptyString => Some c
  | String _ s' => last_char s'
  end.

(** A string that neither begins nor ends with a blank. *)
Definition trimmed (s : string) : Prop :=
  (forall a, first_char s = Some a -> is_space a = false)
  /\ (forall a, last_char s = Some a -> is_space a = false).

(** The exception the validation of one entry raises, if any; the
    index of the entry plays no part in it. *)
Definition entry_raises (item : pyval) : option exn :=
  match clean_entry 0 item with
  | Raise e => Some e
  | Ok _ => None
  end.

(** An entry of the shape the prompt asks for, as far as the validation
    looks at it: a mapping whose url is a string and whose relevance is
    absent or a float. *)
Definition plain_entry (item : pyval) : Prop :=
  exists d,
    item = VDict d
    /\ is_str (dict_get "url" d (VStr "")) = true
    /\ (dict_lookup "relevance" d = None
        \/ exists x, dict_lookup "relevance" d = Some (VFloat x)).

(** A plain entry with a url of the domain. *)
Definition thread_entry (item : pyval) : Prop :=
  exists d s,
    item = VDict d
    /\ dict_get "url" d (VStr "") = VStr s
    /\ contains "reddit.com" s = true
    /\ (dict_lookup "relevance" d = None
        \/ exists x, dict_lookup "relevance" d = Some (VFloat x)).

(** ** The search for the embedded object, step by step *)

(** [g] tried on every suffix of [t], the shortest first: what a greedy
    star over any character does with what follows it. *)
Fixpoint last_match (g : string -> option string) (t : string) : option string :=
  match t with
  | String _ t' =>
      match last_match g t' with
      | Some r => Some r
      | None => g t
      end
  | EmptyString => g t
  end.

(** The key, quotes included. *)
Definition ITEMS_KEY : string := qq "'items'".

(** What follows a closing brace at the head of [v]. *)
Definition after_brace (v : string) : option string := match_lit "}" v.

(** What follows the last closing brace after the key at the head of [v]. *)
Definition after_key (v : string) : option string :=
  match match_lit ITEMS_KEY v with
  | Some v1 => last_match after_brace v1
  | None => None
  end.

(** What is left after a match of the pattern at the head of [s]. *)
Definition items_at (s : string) : option string :=
  match match_lit "{" s with
  | Some t => last_match after_key t
  | None => None
  end.

(** The text of the leftmost match. *)
Fixpoint first_items (s : string) : option string :=
  match items_at s with
  | Some rest => Some (matched_text s rest)
  | None =>
      match s with
      | EmptyString => None
      | String _ s' => first_items s'
      end
  end.

(** [text] holds an object with the key: no opening brace before
    [pre] ends, no closing brace in [post], the key in between. *)
Definition carved (text object : string) : Prop :=
  exists pre mid post,
    text = pre ++ "{" ++ mid ++ "}" ++ post
    /\ object = "{" ++ mid ++ "}"
    /\ mem_char "{" pre = false
    /\ mem_char "}" post = false
    /\ contains ITEMS_KEY mid = true.

(** An entry the validation passes over: not a mapping, a mapping
    whose url is false (absent, empty, null, 0), or a mapping whose
    url is a string without the domain. *)
Definition foreign_entry (item : pyval) : Prop :=
  is_dict item = false
  \/ exists d,
       item = VDict d
       /\ (truthy (dict_get "url" d (VStr "")) = false
           \/ exists s,
                dict_get "url" d (VStr "") = VStr s
                /\ contains "reddit.com" s = false).

(** The response has no true [error] field. *)
Definition no_error (response : dict) : Prop :=
  dict_mem "error" response && truthy (dict_get "error" response VNone) = false.

(* ================================================================== *)
(** * The prompt *)
(* ================================================================== *)




(** ** [str.format] *)












(* ================================================================== *)
(** * The date pattern *)
(* ================================================================== *)

Lemma match_lit_dash (s : string) (rest : string) :
  match_lit "-" s = Some rest -> s = String "-" rest.
Proof.
  destruct s as [|c s]; cbn [match_lit]; [discriminate|].
  destruct (Ascii.eqb "-" c) eqn:E; [|discriminate].
  apply Ascii.eqb_eq in E. subst c.
  intros H. injection H as <-. reflexivity.
Qed.

Lemma match_rep_2 (s rest : string) :
  match_rep 2 cls_d s = Some rest ->
  exists a b, s = String a (String b rest) /\ is_digit a = true /\ is_digit b = true.
Proof.
  destruct s as [|a [|b s]]; cbn [match_rep]; try discriminate.
  - destruct (cls_d a); discriminate.
  - unfold cls_d. destruct (is_digit a) eqn:Ea; [|discriminate].
    destruct (is_digit b) eqn:Eb; [|discriminate].
    intros H. injection H as <-. eauto.
Qed.

Lemma match_rep_4 (s rest : string) :
  match_rep 4 cls_d s = Some rest ->
  exists a b c d,
    s = String a (String b (String c (String d rest)))
    /\ is_digit a = true /\ is_digit b = true
    /\ is_digit c = true /\ is_digit d = true.
Proof.
  destruct s as [|a [|b s]]; cbn [match_rep]; try discriminate.
  - destruct (cls_d a); discriminate.
  - unfold cls_d at 1 2. destruct (is_digit a) eqn:Ea; [|discriminate].
    destruct (is_digit b) eqn:Eb; [|discriminate].
    intros H. apply match_rep_2 in H as (c & d & -> & Hc & Hd).
    exists a, b, c, d. auto.
Qed.

(** What the date pattern accepts: four digits, a dash, two digits, a
    dash, two digits, and then the end of the string or one newline
    that ends it. *)
Lemma date_matches_shape (s : string) :
  date_matches (VStr s) = true <-> date_shaped s.
Proof.
  unfold date_matches, re_match, DATE_RE. cbn [py_str match_re andb negb is_nonempty].
  split.
  - destruct (match_rep 4 cls_d s) as [r1|] eqn:E1; [|discriminate].
    apply match_rep_4 in E1 as (y1 & y2 & y3 & y4 & -> & H1 & H2 & H3 & H4).
    destruct (match_lit "-" r1) as [r2|] eqn:E2; [|discriminate].
    apply match_lit_dash in E2 as ->.
    destruct (match_rep 2 cls_d r2) as [r3|] eqn:E3; [|discriminate].
    apply match_rep_2 in E3 as (m1 & m2 & -> & H5 & H6).
    destruct (match_lit "-" r3) as [r4|] eqn:E4; [|discriminate].
    apply match_lit_dash in E4 as ->.
    destruct (match_rep 2 cls_d r4) as [r5|] eqn:E5; [|discriminate].
    apply match_rep_2 in E5 as (d1 & d2 & -> & H7 & H8).
    intros H. exists y1, y2, y3, y4, m1, m2, d1, d2, r5.
    repeat (split; [first [reflexivity|assumption]|]).
    destruct r5 as [|c [|c' r]]; [auto| |discriminate H].
    destruct (Ascii.eqb c "010") eqn:E; [|discriminate H].
    apply Ascii.eqb_eq in E. subst c. auto.
  - intros (y1 & y2 & y3 & y4 & m1 & m2 & d1 & d2 & tail & -> & H1 & H2 & H3 & H4
            & H5 & H6 & H7 & H8 & Ht).
    cbn [match_rep match_lit]. unfold cls_d.
    rewrite H1, H2, H3, H4. cbn [Ascii.eqb Bool.eqb]. rewrite H5, H6.
    cbn [Ascii.eqb Bool.eqb]. rewrite H7, H8.
    destruct Ht as [-> | ->]; reflexivity.
Qed.

(* ================================================================== *)
(** * The decoder does not depend on its fuel *)
(* ================================================================== *)

Ltac len_lia := simpl in *; lia.

Lemma drop_while_length (p : ascii -> bool) (s : string) :
  (String.length (drop_while p s) <= String.length s)%nat.
Proof.
  induction s as [|c s IH]; simpl; [lia|]. destruct (p c); simpl; lia.
Qed.

Lemma skip_ws_length (s : string) : (String.length (skip_ws s) <= String.length s)%nat.
Proof. apply drop_while_length. Qed.

Lemma skip_ws_cons (s : string) (d : ascii) (t : string) :
  skip_ws s = String d t -> (S (String.length t) <= String.length s)%nat.
Proof.
  intros H. pose proof (skip_ws_length s) as L. rewrite H in L. exact L.
Qed.

Lemma match_lit_length (lit s rest : string) :
  match_lit lit s = Some rest -> (String.length rest <= String.length s)%nat.
Proof.
  revert s. induction lit as [|a lit IH]; intros s; simpl.
  - intros H. injection H as <-. len_lia.
  - destruct s as [|b s]; [discriminate|].
    destruct (Ascii.eqb a b); [|discriminate].
    intros H. apply IH in H. simpl. len_lia.
Qed.

Lemma digits_tail_length (us : bool) (n : nat) :
  forall (s : string) (acc cnt m c : Z) (rest : string),
    (String.length s <= n)%nat ->
    digits_tail us acc cnt s = (m, c, rest) -> (String.length rest <= String.length s)%nat.
Proof.
  induction n as [|n IH]; intros s acc cnt m c rest Hn.
  - destruct s; [|simpl in Hn; lia]. simpl. intros H. injection H as _ _ <-. len_lia.
  - destruct s as [|a s]; simpl.
    + intros H. injection H as _ _ <-. len_lia.
    + simpl in Hn. destruct (is_digit a).
      * intros H. pose proof (IH s _ _ _ _ _ ltac:(len_lia) H) as L. simpl. len_lia.
      * destruct (us && Ascii.eqb a "_"%char).
        -- destruct s as [|d s'].
           ++ intros H. injection H as _ _ <-. simpl. len_lia.
           ++ destruct (is_digit d).
              ** intros H. simpl in Hn.
                 pose proof (IH s' _ _ _ _ _ ltac:(len_lia) H) as L. simpl. len_lia.
              ** intros H. injection H as _ _ <-. simpl. len_lia.
        -- intros H. injection H as _ _ <-. simpl. len_lia.
Qed.

Lemma digit_part_length (us : bool) (s : string) (acc cnt m c : Z) (rest : string) :
  digit_part us acc cnt s = Some (m, c, rest) -> (String.length rest <= String.length s)%nat.
Proof.
  destruct s as [|a s]; simpl; [discriminate|].
  destruct (is_digit a); [|discriminate].
  intros H. injection H as H.
  pose proof (digits_tail_length us (String.length s) s _ _ _ _ _ ltac:(len_lia) H) as L. len_lia.
Qed.

Lemma scan_sign_length (plus : bool) (s : string) (neg : bool) (rest : string) :
  scan_sign plus s = (neg, rest) -> (String.length rest <= String.length s)%nat.
Proof.
  destruct s as [|a s]; simpl.
  - intros H. injection H as _ <-. len_lia.
  - destruct (Ascii.eqb a "-"%char).
    + intros H. injection H as _ <-. len_lia.
    + destruct (plus && Ascii.eqb a "+"%char);
        intros H; injection H as _ <-; simpl; lia.
Qed.

Lemma scan_exponent_length (us : bool) (s : string) (e : option Z) (rest : string) :
  scan_exponent us s = Some (e, rest) -> (String.length rest <= String.length s)%nat.
Proof.
  destruct s as [|a s]; simpl.
  - intros H. injection H as _ <-. len_lia.
  - destruct (Ascii.eqb a "e"%char || Ascii.eqb a "E"%char).
    + destruct (scan_sign true s) as [neg s1] eqn:Es.
      apply scan_sign_length in Es.
      destruct (digit_part us 0 0 s1) as [[[x y] r]|] eqn:Ed; [|discriminate].
      apply digit_part_length in Ed.
      intros H. injection H as _ <-. len_lia.
    + intros H. injection H as _ <-. simpl. len_lia.
Qed.

Lemma scan_int_part_length (s : string) (m : Z) (rest : string) :
  scan_int_part s = Some (m, rest) -> (String.length rest <= String.length s)%nat.
Proof.
  destruct s as [|c s1]; simpl; [discriminate|].
  destruct (Ascii.eqb c "0"%char).
  - intros H. injection H as _ <-. len_lia.
  - destruct (is_digit c); [|discriminate].
    destruct (digits_tail false (digit_val c) 1 s1) as [[m' k] s2] eqn:Ed.
    pose proof (digits_tail_length false (String.length s1) s1 _ _ _ _ _ ltac:(len_lia) Ed) as L.
    intros H. injection H as _ <-. len_lia.
Qed.

Lemma scan_fraction_length (m : Z) (s : string) (m' cnt : Z) (rest : string) :
  scan_fraction m s = Some (m', cnt, rest) -> (String.length rest <= String.length s)%nat.
Proof.
  destruct s as [|c t]; simpl; [discriminate|].
  destruct (Ascii.eqb c "."%char); [|discriminate].
  intros H. apply digit_part_length in H. len_lia.
Qed.

Lemma scan_number_length (s : string) (v : pyval) (rest : string) :
  scan_number s = Some (v, rest) -> (String.length rest <= String.length s)%nat.
Proof.
  unfold scan_number.
  destruct (scan_sign false s) as [neg s0] eqn:Es. apply scan_sign_length in Es.
  destruct (scan_int_part s0) as [[m s1]|] eqn:Ei; [|discriminate].
  apply scan_int_part_length in Ei.
  assert (Hfrac : forall m1 cnt s2 hf,
            match scan_fraction m s1 with
            | Some (m', cnt', t) => (m', cnt', t, true)
            | None => (m, 0, s1, false)
            end = (m1, cnt, s2, hf) -> (String.length s2 <= String.length s1)%nat).
  { intros m1 cnt s2 hf.
    destruct (scan_fraction m s1) as [[[m' cnt'] t]|] eqn:Ef.
    - apply scan_fraction_length in Ef. intros H. injection H as _ _ <- _. exact Ef.
    - intros H. injection H as _ _ <- _. lia. }
  destruct (match scan_fraction m s1 with
            | Some (m', cnt', t) => (m', cnt', t, true)
            | None => (m, 0, s1, false)
            end) as [[[m1 cnt] s2] hf].
  pose proof (Hfrac _ _ _ _ eq_refl) as Ef.
  destruct (scan_exponent false s2) as [[[e|] s3]|] eqn:Ee.
  - apply scan_exponent_length in Ee. intros H. injection H as _ <-. lia.
  - destruct hf; intros H; injection H as _ <-; lia.
  - destruct hf; intros H; injection H as _ <-; lia.
Qed.

Lemma scan_word_length (w : string) (v : pyval) (s : string) (r : pyval * string) :
  scan_word w v s = Some r -> (String.length (snd r) <= String.length s)%nat.
Proof.
  unfold scan_word. destruct (match_lit w s) as [rest|] eqn:E; [|discriminate].
  apply match_lit_length in E. intros H. injection H as <-. exact E.
Qed.

Lemma first_of_cases {A : Type} (a b : option A) (r : A) :
  first_of a b = Some r -> a = Some r \/ b = Some r.
Proof. destruct a; simpl; auto. Qed.

Lemma scan_scalar_length (s : string) (r : pyval * string) :
  scan_scalar s = Some r -> (String.length (snd r) <= String.length s)%nat.
Proof.
  unfold scan_scalar. intros H.
  repeat (apply first_of_cases in H as [H|H];
          [first [exact (scan_word_length _ _ _ _ H)
                 | destruct r; exact (scan_number_length _ _ _ H)]|]).
  exact (scan_word_length _ _ _ _ H).
Qed.

Lemma scan_string_length (n : nat) :
  forall (s v rest : string),
    (String.length s <= n)%nat -> scan_string s = Some (v, rest) ->
    (String.length rest < String.length s)%nat.
Proof.
  induction n as [|n IH]; intros s v rest Hn.
  - destruct s; [discriminate|simpl in Hn; lia].
  - destruct s as [|c s]; [discriminate|]. simpl in Hn. simpl.
    destruct (Ascii.eqb c dquote).
    + intros H. injection H as _ <-. len_lia.
    + destruct (Ascii.eqb c "\"%char).
      * destruct s as [|e s'']; [discriminate|].
        destruct (Ascii.eqb e "u"%char).
        -- destruct s'' as [|h1 [|h2 [|h3 [|h4 s5]]]]; try discriminate.
           destruct (unicode_escape h1 h2 h3 h4); [|discriminate].
           destruct (scan_string s5) as [[v' r']|] eqn:E; [|discriminate].
           simpl in Hn. pose proof (IH s5 _ _ ltac:(len_lia) E) as L.
           intros H. injection H as _ <-. simpl. len_lia.
        -- destruct (simple_escape e); [|discriminate].
           destruct (scan_string s'') as [[v' r']|] eqn:E; [|discriminate].
           simpl in Hn. pose proof (IH s'' _ _ ltac:(len_lia) E) as L.
           intros H. injection H as _ <-. simpl. len_lia.
      * destruct (ord c <? 32)%nat; [discriminate|].
        destruct (scan_string s) as [[v' r']|] eqn:E; [|discriminate].
        pose proof (IH s _ _ ltac:(len_lia) E) as L.
        intros H. injection H as _ <-. len_lia.
Qed.

(** One step of each function of the decoder. *)
Lemma json_value_step (f : nat) (s : string) :
  json_value (S f) s
  = match s with
    | String c s' =>
        if Ascii.eqb c dquote then
          match scan_string s' with
          | Some (v, rest) => Some (VStr v, rest)
          | None => None
          end
        else if Ascii.eqb c "{"%char then
          match skip_ws s' with
          | String d t =>
              if Ascii.eqb d "}"%char then Some (VDict [], t)
              else json_members f (String d t) []
          | EmptyString => None
          end
        else if Ascii.eqb c "["%char then
          match skip_ws s' with
          | String d t =>
              if Ascii.eqb d "]"%char then Some (VList [], t)
              else json_elements f (String d t) []
          | EmptyString => None
          end
        else scan_scalar s
    | EmptyString => None
    end.
Proof. reflexivity. Qed.

Lemma json_elements_step (f : nat) (s : string) (acc : list pyval) :
  json_elements (S f) s acc
  = match json_value f s with
    | Some (v, rest) =>
        match skip_ws rest with
        | String d t =>
            if Ascii.eqb d "]"%char then Some (VList (acc ++ [v])%list, t)
            else if Ascii.eqb d ","%char
            then json_elements f (skip_ws t) (acc ++ [v])%list
            else None
        | EmptyString => None
        end
    | None => None
    end.
Proof. reflexivity. Qed.

Lemma json_members_step (f : nat) (s : string) (acc : dict) :
  json_members (S f) s acc
  = match s with
    | String q s' =>
        if Ascii.eqb q dquote then
          match scan_string s' with
          | Some (key, rest) =>
              match skip_ws rest with
              | String colon t =>
                  if Ascii.eqb colon ":"%char then
                    match json_value f (skip_ws t) with
                    | Some (v, rest') =>
                        match skip_ws rest' with
                        | String d t' =>
                            if Ascii.eqb d "}"%char
                            then Some (VDict (dict_set key v acc), t')
                            else if Ascii.eqb d ","%char
                            then json_members f (skip_ws t') (dict_set key v acc)
                            else None
                        | EmptyString => None
                        end
                    | None => None
                    end
                  else None
              | EmptyString => None
              end
          | None => None
          end
        else None
    | EmptyString => None
    end.
Proof. reflexivity. Qed.

(** Take the next test of the decoding [H] apart. *)
Ltac decode_step H :=
  match type of H with
  | match ?x with _ => _ end = Some _ =>
      let E := fresh "E" in destruct x eqn:E; try discriminate H
  | (if ?b then _ else _) = Some _ =>
      let E := fresh "E" in destruct b eqn:E; try discriminate H
  | (let '(_, _) := ?x in _) = Some _ =>
      let E := fresh "E" in destruct x eqn:E; try discriminate H
  end.

(** More fuel does not change a result. *)
Lemma json_fuel_monotone (f : nat) :
  (forall s r f', json_value f s = Some r -> (f <= f')%nat ->
                  json_value f' s = Some r)
  /\ (forall s acc r f', json_elements f s acc = Some r -> (f <= f')%nat ->
                         json_elements f' s acc = Some r)
  /\ (forall s acc r f', json_members f s acc = Some r -> (f <= f')%nat ->
                         json_members f' s acc = Some r).
Proof.
  induction f as [|f (IHv & IHe & IHm)].
  - repeat split; intros; discriminate.
  - repeat split.
    + intros s r [|f'] H Hle; [lia|].
      rewrite json_value_step in *.
      repeat decode_step H; try exact H.
      * apply IHm; [exact H|lia].
      * apply IHe; [exact H|lia].
    + intros s acc r [|f'] H Hle; [lia|].
      rewrite json_elements_step in *.
      destruct (json_value f s) as [[v rest]|] eqn:Ev; [|discriminate H].
      rewrite (IHv s (v, rest) f' Ev ltac:(lia)).
      repeat decode_step H; try exact H.
      apply IHe; [exact H|lia].
    + intros s acc r [|f'] H Hle; [lia|].
      rewrite json_members_step in *.
      destruct s as [|q s']; [discriminate H|].
      destruct (Ascii.eqb q dquote); [|discriminate H].
      destruct (scan_string s') as [[key rest]|]; [|discriminate H].
      destruct (skip_ws rest) as [|colon t]; [discriminate H|].
      destruct (Ascii.eqb colon ":"%char); [|discriminate H].
      destruct (json_value f (skip_ws t)) as [[v rest']|] eqn:Ev; [|discriminate H].
      rewrite (IHv _ (v, rest') f' Ev ltac:(lia)).
      repeat decode_step H; try exact H.
      apply IHm; [exact H|lia].
Qed.

(** What any amount of fuel decodes, the fuel computed from the length
    of the text decodes too; what is left is never longer than the
    text. *)
Lemma json_fuel_enough (f : nat) :
  (forall s r, json_value f s = Some r ->
               (String.length (snd r) <= String.length s)%nat
               /\ json_value (2 * String.length s + 1) s = Some r)
  /\ (forall s acc r, json_elements f s acc = Some r ->
                      (String.length (snd r) <= String.length s)%nat
                      /\ json_elements (2 * String.length s + 2) s acc = Some r)
  /\ (forall s acc r, json_members f s acc = Some r ->
                      (String.length (snd r) <= String.length s)%nat
                      /\ json_members (2 * String.length s + 1) s acc = Some r).
Proof.
  induction f as [|f (IHv & IHe & IHm)].
  - repeat split; intros; discriminate.
  - repeat split.
    + (* a value *)
      rewrite json_value_step in H.
      destruct s as [|c s']; [discriminate H|].
      destruct (Ascii.eqb c dquote).
      { destruct (scan_string s') as [[v rest]|] eqn:E; [|discriminate H].
        pose proof (scan_string_length (String.length s') s' v rest ltac:(lia) E) as L.
        injection H as <-. len_lia. }
      destruct (Ascii.eqb c "{"%char).
      { destruct (skip_ws s') as [|d t] eqn:E; [discriminate H|].
        apply skip_ws_cons in E.
        destruct (Ascii.eqb d "}"%char).
        - injection H as <-. len_lia.
        - apply IHm in H as (L & _). len_lia. }
      destruct (Ascii.eqb c "["%char).
      { destruct (skip_ws s') as [|d t] eqn:E; [discriminate H|].
        apply skip_ws_cons in E.
        destruct (Ascii.eqb d "]"%char).
        - injection H as <-. len_lia.
        - apply IHe in H as (L & _). len_lia. }
      apply scan_scalar_length in H. exact H.
    + replace (2 * String.length s + 1)%nat with (S (2 * String.length s)) by lia.
      rewrite json_value_step in *.
      destruct s as [|c s']; [discriminate H|].
      destruct (Ascii.eqb c dquote); [exact H|].
      destruct (Ascii.eqb c "{"%char).
      { destruct (skip_ws s') as [|d t] eqn:E; [discriminate H|].
        apply skip_ws_cons in E.
        destruct (Ascii.eqb d "}"%char); [exact H|].
        apply IHm in H as (_ & H).
        refine (proj2 (proj2 (json_fuel_monotone _)) _ _ _ _ H _). len_lia. }
      destruct (Ascii.eqb c "["%char); [|exact H].
      destruct (skip_ws s') as [|d t] eqn:E; [discriminate H|].
      apply skip_ws_cons in E.
      destruct (Ascii.eqb d "]"%char); [exact H|].
      apply IHe in H as (_ & H).
      refine (proj1 (proj2 (json_fuel_monotone _)) _ _ _ _ H _). len_lia.
    + (* the elements of an array *)
      rewrite json_elements_step in H.
      destruct (json_value f s) as [[v rest]|] eqn:Ev; [|discriminate H].
      apply IHv in Ev as (Lv & _). simpl in Lv.
      destruct (skip_ws rest) as [|d t] eqn:E; [discriminate H|].
      apply skip_ws_cons in E.
      destruct (Ascii.eqb d "]"%char).
      * injection H as <-. len_lia.
      * destruct (Ascii.eqb d ","%char); [|discriminate H].
        apply IHe in H as (L & _). pose proof (skip_ws_length t). len_lia.
    + replace (2 * String.length s + 2)%nat with (S (2 * String.length s + 1)) by lia.
      rewrite json_elements_step in *.
      destruct (json_value f s) as [[v rest]|] eqn:Ev; [|discriminate H].
      apply IHv in Ev as (Lv & Ev). simpl in Lv. rewrite Ev.
      destruct (skip_ws rest) as [|d t] eqn:E; [discriminate H|].
      apply skip_ws_cons in E.
      destruct (Ascii.eqb d "]"%char); [exact H|].
      destruct (Ascii.eqb d ","%char); [|discriminate H].
      apply IHe in H as (_ & H). pose proof (skip_ws_length t).
      refine (proj1 (proj2 (json_fuel_monotone _)) _ _ _ _ H _). len_lia.
    + (* the members of an object *)
      rewrite json_members_step in H.
      destruct s as [|q s']; [discriminate H|].
      destruct (Ascii.eqb q dquote); [|discriminate H].
      destruct (scan_string s') as [[key rest]|] eqn:Ek; [|discriminate H].
      pose proof (scan_string_length (String.length s') s' key rest ltac:(lia) Ek) as Lk.
      destruct (skip_ws rest) as [|colon t] eqn:E; [discriminate H|].
      apply skip_ws_cons in E.
      destruct (Ascii.eqb colon ":"%char); [|discriminate H].
      destruct (json_value f (skip_ws t)) as [[v rest']|] eqn:Ev; [|discriminate H].
      apply IHv in Ev as (Lv & _). simpl in Lv. pose proof (skip_ws_length t).
      destruct (skip_ws rest') as [|d t'] eqn:E'; [discriminate H|].
      apply skip_ws_cons in E'.
      destruct (Ascii.eqb d "}"%char).
      * injection H as <-. len_lia.
      * destruct (Ascii.eqb d ","%char); [|discriminate H].
        apply IHm in H as (L & _). pose proof (skip_ws_length t'). len_lia.
    + replace (2 * String.length s + 1)%nat with (S (2 * String.length s)) by lia.
      rewrite json_members_step in *.
      destruct s as [|q s']; [discriminate H|].
      destruct (Ascii.eqb q dquote); [|discriminate H].
      destruct (scan_string s') as [[key rest]|] eqn:Ek; [|discriminate H].
      pose proof (scan_string_length (String.length s') s' key rest ltac:(lia) Ek) as Lk.
      destruct (skip_ws rest) as [|colon t] eqn:E; [discriminate H|].
      apply skip_ws_cons in E.
      destruct (Ascii.eqb colon ":"%char); [|discriminate H].
      destruct (json_value f (skip_ws t)) as [[v rest']|] eqn:Ev; [|discriminate H].
      apply IHv in Ev as (Lv & Ev). simpl in Lv. pose proof (skip_ws_length t).
      rewrite (proj1 (json_fuel_monotone _) _ _ (2 * String.length (String q s'))%nat Ev
                 ltac:(len_lia)).
      destruct (skip_ws rest') as [|d t'] eqn:E'; [discriminate H|].
      apply skip_ws_cons in E'.
      destruct (Ascii.eqb d "}"%char); [exact H|].
      destruct (Ascii.eqb d ","%char); [|discriminate H].
      apply IHm in H as (_ & H). pose proof (skip_ws_length t').
      refine (proj2 (proj2 (json_fuel_monotone _)) _ _ _ _ H _). len_lia.
Qed.

(** [json_loads] gives what the decoder gives with any larger fuel:
    its fuel never runs out. *)
Theorem json_loads_fuel (s : string) (f : nat) :
  (2 * String.length s + 2 <= f)%nat ->
  json_loads s
  = match json_value f (skip_ws s) with
    | Some (v, rest) =>
        match skip_ws rest with
        | EmptyString => Some v
        | String _ _ => None
        end
    | None => None
    end.
Proof.
  intros Hf. unfold json_loads.
  destruct (json_value f (skip_ws s)) as [r|] eqn:E.
  - apply (proj1 (json_fuel_enough f)) in E as (_ & E).
    pose proof (skip_ws_length s) as L.
    rewrite (proj1 (json_fuel_monotone _) _ _ (2 * String.length s + 2)%nat E ltac:(lia)).
    reflexivity.
  - destruct (json_value (2 * String.length s + 2) (skip_ws s)) as [r|] eqn:E'; [|reflexivity].
    rewrite (proj1 (json_fuel_monotone _) _ _ f E' Hf) in E. discriminate E.
Qed.

(* ================================================================== *)
(** * Depth profiles *)
(* ================================================================== *)

Lemma depth_bounds_unknown (depth : string) :
  depth <> "quick" -> depth <> "default" -> depth <> "deep" ->
  depth_bounds depth = Ok (20, 30).
Proof.
  intros Hq Hd Hp. unfold depth_bounds, config_get. simpl.
  destruct (String.eqb_spec depth "quick") as [E|_]; [contradiction|].
  destruct (String.eqb_spec depth "default") as [E|_]; [contradiction|].
  destruct (String.eqb_spec depth "deep") as [E|_]; [contradiction|].
  reflexivity.
Qed.

Lemma depth_timeout_unknown (depth : string) :
  depth <> "quick" -> depth <> "default" -> depth_timeout depth = 120.
Proof.
  intros Hq Hd. unfold depth_timeout.
  destruct (String.eqb_spec depth "quick") as [E|_]; [contradiction|].
  destruct (String.eqb_spec depth "default") as [E|_]; [contradiction|].
  reflexivity.
Qed.

Lemma depth_timeout_known :
  depth_timeout "quick" = 60 /\ depth_timeout "default" = 90
  /\ depth_timeout "deep" = 120.
Proof. repeat split. Qed.

(** C2 -- on a depth tag outside quick, default and deep (here "turbo"),
    [search_reddit] posts a request with the default bounds (20, 30) but
    with the timeout of the deep profile, 120 seconds, not the 90
    seconds of the default profile. *)
Theorem search_reddit_unknown_depth
    (http_post : string -> payload -> list (string * string) -> Z -> result dict)
    (api_key model topic from_date to_date : string) :
  search_reddit http_post api_key model topic from_date to_date "turbo" None
  = http_post OPENAI_RESPONSES_URL
      {| payload_model := model;
         payload_tool_type := "web_search";
         payload_allowed_domains := ["reddit.com"];
         payload_include := ["web_search_call.action.sources"];
         payload_input :=
           {| prompt_topic := topic;
              prompt_from_date := from_date;
              prompt_to_date := to_date;
              prompt_min_items := 20;
              prompt_max_items := 30 |} |}
      [ ("Authorization", "Bearer " ++ api_key);
        ("Content-Type", "application/json") ]
      120.
Proof. reflexivity. Qed.

(* ================================================================== *)
(** * The error short-circuit *)
(* ================================================================== *)

(** C3 -- a response whose [error] field is present and true is answered
    with the empty list, whatever else it holds: the only effect is the
    error log (and the dump in debug mode), neither the output nor the
    choices are looked at. *)
Theorem parse_error_short_circuit (DEBUG : bool) (response : dict) :
  dict_mem "error" response = true ->
  truthy (dict_get "error" response VNone) = true ->
  parse_reddit_response DEBUG response
  = (ApiErrorLogged (error_message (dict_get "error" response VNone))
       :: (if DEBUG then [FullErrorLogged response] else []),
     Ok []).
Proof.
  intros Hmem Htrue. unfold parse_reddit_response.
  rewrite Hmem, Htrue. reflexivity.
Qed.

Lemma parse_error_short_circuit_witness :
  parse_reddit_response false rate_limited_response
  = ([ApiErrorLogged "rate limited"], Ok [])
  /\ parsed false (tl rate_limited_response) = Raise TypeError.
Proof.
  split.
  - apply (parse_error_short_circuit false rate_limited_response); reflexivity.
  - reflexivity.
Defined.

(* ================================================================== *)
(** * Scenario *)
(* ================================================================== *)

(** C7 -- the scenario response yields exactly one item, of relevance
    1.0: the search carves the embedded object out of the prose, from
    the first opening brace to the last closing one, and the relevance
    1.7 is clamped. *)
Theorem parse_scenario (DEBUG : bool) :
  re_search ITEMS_RE scenario_text
  = Some (qq "{'items':[{'title':'T','url':'https://reddit.com/r/x/comments/1/t/','relevance':1.7}]}")
  /\ parse_reddit_response DEBUG scenario_response
     = ([], Ok [ {| item_id := "R1";
                    item_title := "T";
                    item_url := VStr "https://reddit.com/r/x/comments/1/t/";
                    item_subreddit := "";
                    item_date := VNone;
                    item_why_relevant := "";
                    item_relevance := float_one |} ])
  /\ float_of_str "1.7" = Ok (S754_finite false 7656119366529843 (-52))
  /\ float_lt float_one (S754_finite false 7656119366529843 (-52)) = true.
Proof. repeat split; vm_compute; reflexivity. Qed.

(* ================================================================== *)
(** * Exceptions that escape *)
(* ================================================================== *)

(** C1 -- degraded content does raise: a relevance that is not numeric
    ([ValueError] for "high", [TypeError] for null), a choice that is
    not a mapping, a text that is not a string. *)
Theorem parse_raises_on_degraded_content (DEBUG : bool) :
  parsed DEBUG non_numeric_relevance_response = Raise ValueError
  /\ parsed DEBUG null_relevance_response = Raise TypeError
  /\ parsed DEBUG malformed_choices_response = Raise TypeError
  /\ parsed DEBUG non_string_text_response = Raise TypeError.
Proof. repeat split; vm_compute; reflexivity. Qed.

(* ================================================================== *)
(** * Floats *)
(* ================================================================== *)

Lemma float_lt_le (x y : spec_float) : float_lt x y = true -> float_le x y = true.
Proof.
  unfold float_lt, float_le, SFltb, SFleb.
  destruct (SFcompare x y) as [[ | | ]|]; congruence.
Qed.

Lemma clamp_cases (x : spec_float) :
  (float_lt float_zero x = true /\ float_lt x float_one = true /\ clamp x = x)
  \/ clamp x = float_one
  \/ clamp x = float_zero.
Proof.
  unfold clamp, float_min, float_max.
  destruct (float_lt float_zero x) eqn:E0.
  - destruct (float_lt x float_one) eqn:E1; auto.
  - right; right. reflexivity.
Qed.

Lemma clamp_in_range (x : spec_float) :
  float_le float_zero (clamp x) = true /\ float_le (clamp x) float_one = true.
Proof.
  destruct (clamp_cases x) as [(H0 & H1 & E) | [E | E]]; rewrite E.
  - split; apply float_lt_le; assumption.
  - split; reflexivity.
  - split; reflexivity.
Qed.

Lemma clamp_idempotent (x : spec_float) : clamp (clamp x) = clamp x.
Proof.
  destruct (clamp_cases x) as [(H0 & H1 & E) | [E | E]]; rewrite E.
  - unfold clamp, float_min, float_max. rewrite H0, H1. reflexivity.
  - reflexivity.
  - reflexivity.
Qed.

(* ================================================================== *)
(** * Strings *)
(* ================================================================== *)

Lemma drop_while_head (p : ascii -> bool) (s : string) (c : ascii) (t : string) :
  drop_while p s = String c t -> p c = false.
Proof.
  induction s as [|a s IH]; simpl; [discriminate|].
  destruct (p a) eqn:E; [exact IH|].
  intros H. injection H as -> _. exact E.
Qed.

Lemma drop_while_suffix (p : ascii -> bool) (s : string) :
  exists pre, s = pre ++ drop_while p s /\ all_chars p pre = true.
Proof.
  induction s as [|a s (pre & E & H)]; simpl.
  - exists "". split; reflexivity.
  - destruct (p a) eqn:Ea.
    + exists (String a pre). simpl. rewrite Ea, H. split; [f_equal; exact E|reflexivity].
    + exists "". split; reflexivity.
Qed.

Lemma starts_with_char (a c : ascii) (t : string) :
  starts_with (String a "") (String c t) = Ascii.eqb a c.
Proof.
  unfold starts_with. simpl.
  destruct (Ascii.eqb_spec a c) as [->|N].
  - destruct (ascii_dec c c); [destruct t; reflexivity|contradiction].
  - destruct (ascii_dec a c); [contradiction|reflexivity].
Qed.

Lemma lstrip_no_leading (chars : string) (s : string) (a : ascii) :
  mem_char a chars = true -> starts_with (String a "") (lstrip chars s) = false.
Proof.
  intros Ha. unfold lstrip.
  destruct (drop_while (fun c => mem_char c chars) s) as [|c t] eqn:E.
  - reflexivity.
  - apply drop_while_head in E. rewrite starts_with_char.
    destruct (Ascii.eqb_spec a c) as [->|_]; [congruence|reflexivity].
Qed.

(* ================================================================== *)
(** * The validation loop *)
(* ================================================================== *)

Lemma bind_Ok {A B : Type} (c : result A) (k : A -> result B) (b : B) :
  bind c k = Ok b -> exists a, c = Ok a /\ k a = Ok b.
Proof. destruct c; simpl; [eauto|discriminate]. Qed.

(** What a kept entry looks like. *)
Lemma clean_entry_kept (i : nat) (item : pyval) (c : clean_item) :
  clean_entry i item = Ok (Some c) ->
  exists d x,
    item = VDict d
    /\ truthy (dict_get "url" d (VStr "")) = true
    /\ py_in "reddit.com" (dict_get "url" d (VStr "")) = Ok true
    /\ py_float (dict_get "relevance" d (VFloat float_half)) = Ok x
    /\ c = {| item_id := make_id i;
              item_title := strip (py_str (dict_get "title" d (VStr "")));
              item_url := dict_get "url" d (VStr "");
              item_subreddit :=
                lstrip "r/" (strip (py_str (dict_get "subreddit" d (VStr ""))));
              item_date := validate_date (dict_get "date" d VNone);
              item_why_relevant :=
                strip (py_str (dict_get "why_relevant" d (VStr "")));
              item_relevance := clamp x |}.
Proof.
  destruct item as [ | | | | | |d]; simpl; try discriminate.
  destruct (truthy (dict_get "url" d (VStr ""))) eqn:Eu; simpl; [|discriminate].
  destruct (py_in "reddit.com" (dict_get "url" d (VStr ""))) as [[|]|] eqn:Ein;
    simpl; try discriminate.
  destruct (py_float (dict_get "relevance" d (VFloat float_half))) as [x|] eqn:Ef;
    simpl; [|discriminate].
  intros H. injection H as <-. exists d, x. auto.
Qed.

(** What a skipped entry looks like. *)
Lemma clean_entry_skipped (i : nat) (item : pyval) :
  clean_entry i item = Ok None -> skipped item.
Proof.
  destruct item as [ | | | | | |d]; simpl; auto.
  destruct (truthy (dict_get "url" d (VStr ""))) eqn:Eu; simpl; [|auto].
  destruct (py_in "reddit.com" (dict_get "url" d (VStr ""))) as [[|]|] eqn:Ein;
    simpl; try discriminate; auto.
  destruct (py_float (dict_get "relevance" d (VFloat float_half))); discriminate.
Qed.

Lemma clean_loop_cons (i : nat) (item : pyval) (items : list pyval)
    (out : list clean_item) :
  clean_loop i (item :: items) = Ok out ->
  exists kept rest,
    clean_entry i item = Ok kept
    /\ clean_loop (S i) items = Ok rest
    /\ out = match kept with Some c => c :: rest | None => rest end.
Proof.
  simpl. intros H.
  apply bind_Ok in H as (kept & Hk & H).
  apply bind_Ok in H as (rest & Hr & H).
  injection H as <-. eauto.
Qed.

(** Every item of the result comes from an entry of the list. *)
Lemma clean_loop_In (items : list pyval) :
  forall (i : nat) (out : list clean_item) (c : clean_item),
    clean_loop i items = Ok out -> In c out ->
    exists j item,
      nth_error items j = Some item /\ clean_entry (i + j) item = Ok (Some c).
Proof.
  induction items as [|item items IH]; intros i out c H Hin.
  - simpl in H. injection H as <-. contradiction.
  - apply clean_loop_cons in H as (kept & rest & Hk & Hr & ->).
    assert (Hrest : In c rest ->
              exists j it, nth_error (item :: items) j = Some it
                           /\ clean_entry (i + j) it = Ok (Some c)).
    { intros Hc. destruct (IH _ _ _ Hr Hc) as (j & it & Hn & He).
      exists (S j), it. split; [exact Hn|].
      replace (i + S j)%nat with (S i + j)%nat by lia. exact He. }
    destruct kept as [c0|]; [|auto].
    destruct Hin as [->|Hc]; [|auto].
    exists 0%nat, item. split; [reflexivity|].
    replace (i + 0)%nat with i by lia. exact Hk.
Qed.

(** A call that returns items has run the validation loop on the
    entries of the decoded [items]. *)
Lemma parsed_inv (DEBUG : bool) (response : dict) (out : list clean_item) :
  parsed DEBUG response = Ok out ->
  out = [] \/ exists items entries,
                py_iter items = Ok entries /\ clean_loop 0 entries = Ok out.
Proof.
  unfold parsed, parse_reddit_response.
  destruct (dict_mem "error" response && truthy (dict_get "error" response VNone)).
  - simpl. intros H. injection H as <-. auto.
  - destruct (find_output_text response) as [text|]; simpl; [|discriminate].
    destruct (negb (truthy text)); simpl.
    + intros H. injection H as <-. auto.
    + intros H. apply bind_Ok in H as (items & _ & H).
      unfold clean_items in H. apply bind_Ok in H as (entries & Hi & H).
      right. eauto.
Qed.

Lemma parsed_item (DEBUG : bool) (response : dict) (out : list clean_item)
    (c : clean_item) :
  parsed DEBUG response = Ok out -> In c out ->
  exists i item, clean_entry i item = Ok (Some c).
Proof.
  intros H Hin. apply parsed_inv in H as [->|(items & entries & _ & H)].
  - contradiction.
  - destruct (clean_loop_In entries 0%nat out c H Hin) as (j & item & _ & He). eauto.
Qed.

(* ================================================================== *)
(** * Relevance and domain of the items *)
(* ================================================================== *)

(** C4, as worded, fails: an entry whose url is the list
    [["reddit.com"]] passes the membership test and is kept with that
    list as its url. *)
Lemma list_url_is_kept :
  exists c,
    parsed false list_url_response = Ok [c]
    /\ item_url c = VList [VStr "reddit.com"]
    /\ ~ url_has_domain c.
Proof.
  eexists. split; [vm_compute; reflexivity|]. split; [reflexivity|].
  intros (s & H & _). discriminate H.
Qed.

(** C4, amended -- every item of a result has a relevance between 0.0
    and 1.0 and a true url for which the test ["reddit.com" in url]
    holds; when the url is a string this is substring containment. *)
Theorem items_relevance_and_domain (DEBUG : bool) (response : dict)
    (out : list clean_item) (c : clean_item) :
  parsed DEBUG response = Ok out -> In c out ->
  relevance_in_range c
  /\ truthy (item_url c) = true
  /\ py_in "reddit.com" (item_url c) = Ok true
  /\ (is_str (item_url c) = true -> url_has_domain c).
Proof.
  intros H Hin.
  destruct (parsed_item _ _ _ _ H Hin) as (i & item & He).
  apply clean_entry_kept in He as (d & x & _ & Hu & Hd & _ & ->). simpl.
  split; [apply clamp_in_range|]. split; [exact Hu|]. split; [exact Hd|].
  unfold url_has_domain. simpl.
  destruct (dict_get "url" d (VStr "")) as [ | | | |s| | ]; simpl; try discriminate.
  intros _. exists s. split; [reflexivity|]. simpl in Hd. congruence.
Qed.

Lemma items_relevance_and_domain_witness :
  let c := {| item_id := "R1";
              item_title := "T";
              item_url := VStr "https://reddit.com/r/x/comments/1/t/";
              item_subreddit := "";
              item_date := VNone;
              item_why_relevant := "";
              item_relevance := float_one |} in
  relevance_in_range c
  /\ truthy (item_url c) = true
  /\ py_in "reddit.com" (item_url c) = Ok true
  /\ (is_str (item_url c) = true -> url_has_domain c).
Proof.
  intros c.
  apply (items_relevance_and_domain false scenario_response [c] c).
  - vm_compute. reflexivity.
  - simpl. left. reflexivity.
Defined.

(* ================================================================== *)
(** * Dates *)
(* ================================================================== *)

Lemma dict_lookup_set (k k' : string) (v : pyval) (d : dict) :
  dict_lookup k (dict_set k' v d)
  = if (k =? k')%string then Some v else dict_lookup k d.
Proof.
  induction d as [|[k0 v0] d IH]; simpl.
  - destruct (k =? k')%string; reflexivity.
  - destruct (String.eqb_spec k' k0) as [->|N]; simpl.
    + destruct (k =? k0)%string; reflexivity.
    + rewrite IH. destruct (String.eqb_spec k k0) as [->|N'].
      * destruct (String.eqb_spec k0 k') as [E|_]; [congruence|reflexivity].
      * reflexivity.
Qed.

Lemma dict_get_set_same (k : string) (v dflt : pyval) (d : dict) :
  dict_get k (dict_set k v d) dflt = v.
Proof. unfold dict_get. rewrite dict_lookup_set, String.eqb_refl. reflexivity. Qed.

Lemma dict_get_set_other (k k' : string) (v dflt : pyval) (d : dict) :
  (k =? k')%string = false ->
  dict_get k (dict_set k' v d) dflt = dict_get k d dflt.
Proof. intros N. unfold dict_get. rewrite dict_lookup_set, N. reflexivity. Qed.

Lemma validate_date_cases (v : pyval) :
  (truthy v = false -> validate_date v = v)
  /\ (truthy v = true -> date_matches v = true -> validate_date v = v)
  /\ (truthy v = true -> date_matches v = false -> validate_date v = VNone).
Proof.
  unfold validate_date.
  destruct (truthy v); destruct (date_matches v); repeat split; congruence.
Qed.

Lemma validate_date_true (v : pyval) :
  truthy (validate_date v) = true -> date_matches (validate_date v) = true.
Proof.
  unfold validate_date.
  destruct (truthy v) eqn:Et; [|congruence].
  destruct (date_matches v) eqn:Em; [congruence|]. simpl. discriminate.
Qed.

Lemma validate_date_idempotent (v : pyval) :
  validate_date (validate_date v) = validate_date v.
Proof.
  destruct (validate_date_cases v) as (H1 & H2 & H3).
  destruct (truthy v) eqn:Et.
  - destruct (date_matches v) eqn:Em.
    + rewrite (H2 eq_refl eq_refl). apply H2; reflexivity.
    + rewrite (H3 eq_refl eq_refl). reflexivity.
  - rewrite (H1 eq_refl). apply H1; reflexivity.
Qed.

(** The date of an entry decides nothing but the date of the item. *)
Lemma clean_entry_date_irrelevant (i : nat) (d : dict) (c : clean_item) (v : pyval) :
  clean_entry i (VDict d) = Ok (Some c) ->
  clean_entry i (VDict (dict_set "date" v d))
  = Ok (Some (with_date c (validate_date v))).
Proof.
  intros H. apply clean_entry_kept in H as (d' & x & E & Hu & Hd & Hf & ->).
  injection E as <-. simpl.
  rewrite dict_get_set_same.
  rewrite !dict_get_set_other by reflexivity.
  rewrite Hu. simpl. rewrite Hd. simpl. rewrite Hf. simpl. reflexivity.
Qed.

(** C5, as worded, fails: an empty string is not null, does not match
    the pattern, and is passed through as the date of the item. *)
Lemma empty_date_is_kept :
  exists c,
    parsed false empty_date_response = Ok [c]
    /\ item_date c = VStr ""
    /\ ~ date_well_formed c.
Proof.
  eexists. split; [vm_compute; reflexivity|]. split; [reflexivity|].
  unfold date_well_formed. simpl. intros H.
  assert (E : date_matches (VStr "") = true) by (apply H; discriminate).
  vm_compute in E. discriminate E.
Qed.

(** C5, amended -- a date of an item that is true matches the pattern:
    its text is four digits, a dash, two digits, a dash and two digits
    (the [$] of the pattern lets one final newline follow).
    The item comes from an entry whose date is passed through when it
    is false (null, but also the empty string, 0, false, an empty list
    or mapping), kept when it is true and matches, and replaced with
    null otherwise; whatever the date of the entry, the entry is kept
    and only the date of the item depends on it. *)
Theorem date_validated (DEBUG : bool) (response : dict)
    (out : list clean_item) (c : clean_item) :
  parsed DEBUG response = Ok out -> In c out ->
  (truthy (item_date c) = true ->
   date_matches (item_date c) = true /\ date_shaped (py_str (item_date c)))
  /\ exists i d,
       clean_entry i (VDict d) = Ok (Some c)
       /\ (truthy (dict_get "date" d VNone) = false ->
           item_date c = dict_get "date" d VNone)
       /\ (truthy (dict_get "date" d VNone) = true ->
           date_matches (dict_get "date" d VNone) = true ->
           item_date c = dict_get "date" d VNone)
       /\ (truthy (dict_get "date" d VNone) = true ->
           date_matches (dict_get "date" d VNone) = false ->
           item_date c = VNone)
       /\ forall v,
            clean_entry i (VDict (dict_set "date" v d))
            = Ok (Some (with_date c (validate_date v))).
Proof.
  intros H Hin.
  destruct (parsed_item _ _ _ _ H Hin) as (i & item & He).
  pose proof He as Hk.
  apply clean_entry_kept in Hk as (d & x & -> & _ & _ & _ & Ec).
  assert (Ed : item_date c = validate_date (dict_get "date" d VNone))
    by (rewrite Ec; reflexivity).
  split.
  - rewrite Ed. intros Ht. pose proof (validate_date_true _ Ht) as Hm.
    split; [exact Hm|]. apply date_matches_shape. exact Hm.
  - exists i, d. split; [exact He|]. rewrite Ed.
    destruct (validate_date_cases (dict_get "date" d VNone)) as (H1 & H2 & H3).
    repeat split; try assumption.
    intros v. apply clean_entry_date_irrelevant. exact He.
Qed.

Lemma date_validated_witness :
  let c := {| item_id := "R1";
              item_title := "";
              item_url := VStr "https://reddit.com/r/x";
              item_subreddit := "";
              item_date := VStr "";
              item_why_relevant := "";
              item_relevance := float_half |} in
  (truthy (item_date c) = true ->
   date_matches (item_date c) = true /\ date_shaped (py_str (item_date c)))
  /\ exists i d,
       clean_entry i (VDict d) = Ok (Some c)
       /\ (truthy (dict_get "date" d VNone) = false ->
           item_date c = dict_get "date" d VNone)
       /\ (truthy (dict_get "date" d VNone) = true ->
           date_matches (dict_get "date" d VNone) = true ->
           item_date c = dict_get "date" d VNone)
       /\ (truthy (dict_get "date" d VNone) = true ->
           date_matches (dict_get "date" d VNone) = false ->
           item_date c = VNone)
       /\ forall v,
            clean_entry i (VDict (dict_set "date" v d))
            = Ok (Some (with_date c (validate_date v))).
Proof.
  intros c.
  apply (date_validated false empty_date_response [c] c).
  - vm_compute. reflexivity.
  - simpl. left. reflexivity.
Defined.

(* ================================================================== *)
(** * Ids and order *)
(* ================================================================== *)

Lemma Forall2_left {A B : Type} (R : A -> B -> Prop) (P : A -> Prop)
    (l : list A) (l' : list B) :
  (forall a b, R a b -> P a) -> Forall2 R l l' -> Forall P l.
Proof.
  intros HRP H. induction H; constructor; eauto.
Qed.

Lemma made_from_tail (item : pyval) (entries : list pyval) (i j : nat)
    (c : clean_item) :
  made_from entries (S i) j c -> made_from (item :: entries) i j c.
Proof.
  intros (Hle & Hid & it & Hn & He).
  split; [lia|]. split; [exact Hid|].
  exists it. split; [|exact He].
  replace (j - i)%nat with (S (j - S i)) by lia. exact Hn.
Qed.

Lemma clean_loop_indices (entries : list pyval) :
  forall (i : nat) (out : list clean_item),
    clean_loop i entries = Ok out ->
    exists idxs,
      StronglySorted lt idxs
      /\ Forall2 (made_from entries i) idxs out
      /\ forall j item,
           nth_error entries j = Some item -> ~ In (i + j)%nat idxs ->
           skipped item.
Proof.
  induction entries as [|item entries IH]; intros i out H.
  - simpl in H. injection H as <-. exists []. repeat split.
    + constructor.
    + constructor.
    + intros [|j] it Hn; discriminate Hn.
  - apply clean_loop_cons in H as (kept & rest & Hk & Hr & ->).
    destruct (IH _ _ Hr) as (idxs & Hs & Hf & Hskip).
    assert (Hgt : Forall (lt i) idxs).
    { apply (Forall2_left _ _ _ _ (fun a b (M : made_from entries (S i) a b) =>
                                     proj1 M) Hf). }
    assert (Htl : Forall2 (made_from (item :: entries) i) idxs rest).
    { eapply Forall2_impl; [|exact Hf]. intros a b. apply made_from_tail. }
    destruct kept as [c|].
    + exists (i :: idxs). repeat split.
      * constructor; assumption.
      * constructor; [|exact Htl].
        split; [lia|]. split.
        -- apply clean_entry_kept in Hk as (d & x & _ & _ & _ & _ & ->). reflexivity.
        -- exists item. rewrite Nat.sub_diag. split; [reflexivity|exact Hk].
      * intros [|j] it Hn Hnot.
        -- exfalso. apply Hnot. left. lia.
        -- simpl in Hn. apply (Hskip j it Hn). intros Hin. apply Hnot. right.
           replace (i + S j)%nat with (S i + j)%nat by lia. exact Hin.
    + exists idxs. repeat split.
      * exact Hs.
      * exact Htl.
      * intros [|j] it Hn Hnot.
        -- simpl in Hn. injection Hn as <-. apply (clean_entry_skipped i). exact Hk.
        -- simpl in Hn. apply (Hskip j it Hn). intros Hin. apply Hnot.
           replace (i + S j)%nat with (S i + j)%nat by lia. exact Hin.
Qed.

(** C6 -- the items of a result correspond, in order, to a strictly
    increasing list of positions in the parsed list; the item made from
    the entry at position [j] (from 0) has the id "R" followed by
    [j + 1], whatever was skipped before it, and every position left
    out holds an entry that is not a mapping or fails the url check. *)
Theorem ids_follow_original_position (items : pyval) (out : list clean_item) :
  clean_items items = Ok out ->
  exists entries idxs,
    py_iter items = Ok entries
    /\ StronglySorted lt idxs
    /\ Forall2
         (fun j c =>
            item_id c = "R" ++ str_of_int (Z.of_nat j + 1)
            /\ exists item,
                 nth_error entries j = Some item
                 /\ clean_entry j item = Ok (Some c))
         idxs out
    /\ forall j item,
         nth_error entries j = Some item -> ~ In j idxs -> skipped item.
Proof.
  unfold clean_items. intros H.
  apply bind_Ok in H as (entries & Hi & H).
  destruct (clean_loop_indices entries 0%nat out H) as (idxs & Hs & Hf & Hskip).
  exists entries, idxs.
  split; [exact Hi|]. split; [exact Hs|]. split; [|exact Hskip].
  eapply Forall2_impl; [|exact Hf].
  intros j c (_ & Hid & item & Hn & He). rewrite Nat.sub_0_r in Hn. eauto.
Qed.

Lemma ids_follow_original_position_witness :
  exists entries idxs,
    py_iter ranked_items = Ok entries
    /\ StronglySorted lt idxs
    /\ Forall2
         (fun j c =>
            item_id c = "R" ++ str_of_int (Z.of_nat j + 1)
            /\ exists item,
                 nth_error entries j = Some item
                 /\ clean_entry j item = Ok (Some c))
         idxs
         [ {| item_id := "R2";
              item_title := "";
              item_url := VStr "https://reddit.com/r/a";
              item_subreddit := "";
              item_date := VNone;
              item_why_relevant := "";
              item_relevance := float_half |};
           {| item_id := "R5";
              item_title := "";
              item_url := VStr "https://reddit.com/r/b";
              item_subreddit := "";
              item_date := VNone;
              item_why_relevant := "";
              item_relevance := float_half |} ]
    /\ forall j item,
         nth_error entries j = Some item -> ~ In j idxs -> skipped item.
Proof.
  apply (ids_follow_original_position ranked_items).
  vm_compute. reflexivity.
Defined.

(* ================================================================== *)
(** * The subreddit *)
(* ================================================================== *)

(** C10 -- the subreddit loses every leading character of the set
    {r, /}, not the prefix "r/": "rust" comes out as "ust" although
    trimming leaves it unchanged; and the subreddit of an item never
    begins with "r" or "/": it is what is left of the trimmed input
    after a longest prefix made of these two characters only. *)
Theorem subreddit_strips_character_set :
  (exists c,
     parsed false rust_response = Ok [c]
     /\ strip "rust" = "rust"
     /\ item_subreddit c = "ust")
  /\ forall (DEBUG : bool) (response : dict) (out : list clean_item)
       (c : clean_item),
       parsed DEBUG response = Ok out -> In c out ->
       starts_with "r" (item_subreddit c) = false
       /\ starts_with "/" (item_subreddit c) = false
       /\ exists i d removed,
            clean_entry i (VDict d) = Ok (Some c)
            /\ strip (py_str (dict_get "subreddit" d (VStr "")))
               = removed ++ item_subreddit c
            /\ all_chars (fun a => mem_char a "r/") removed = true.
Proof.
  split.
  - eexists. split; [vm_compute; reflexivity|]. split; reflexivity.
  - intros DEBUG response out c H Hin.
    destruct (parsed_item _ _ _ _ H Hin) as (i & item & He).
    pose proof He as Hk.
    apply clean_entry_kept in Hk as (d & x & -> & _ & _ & _ & Ec).
    assert (Es : item_subreddit c
                 = lstrip "r/" (strip (py_str (dict_get "subreddit" d (VStr "")))))
      by (rewrite Ec; reflexivity).
    rewrite Es. split; [apply lstrip_no_leading; reflexivity|].
    split; [apply lstrip_no_leading; reflexivity|].
    destruct (drop_while_suffix (fun a => mem_char a "r/")
                (strip (py_str (dict_get "subreddit" d (VStr "")))))
      as (pre & E & Hall).
    exists i, d, pre. split; [exact He|]. split; [exact E|exact Hall].
Qed.

Lemma subreddit_strips_character_set_witness :
  let c := {| item_id := "R1";
              item_title := "";
              item_url := VStr "https://reddit.com/r/rust";
              item_subreddit := "ust";
              item_date := VNone;
              item_why_relevant := "";
              item_relevance := float_half |} in
  starts_with "r" (item_subreddit c) = false
  /\ starts_with "/" (item_subreddit c) = false
  /\ exists i d removed,
       clean_entry i (VDict d) = Ok (Some c)
       /\ strip (py_str (dict_get "subreddit" d (VStr "")))
          = removed ++ item_subreddit c
       /\ all_chars (fun a => mem_char a "r/") removed = true.
Proof.
  intros c.
  apply (proj2 subreddit_strips_character_set false rust_response [c] c).
  - vm_compute. reflexivity.
  - simpl. left. reflexivity.
Defined.

(* ================================================================== *)
(** * Trimming twice *)
(* ================================================================== *)

Lemma drop_while_fixed (p : ascii -> bool) (c : ascii) (t : string) :
  p c = false -> drop_while p (String c t) = String c t.
Proof. intros H. simpl. rewrite H. reflexivity. Qed.

Lemma drop_while_idempotent (p : ascii -> bool) (s : string) :
  drop_while p (drop_while p s) = drop_while p s.
Proof.
  destruct (drop_while p s) as [|c t] eqn:E; [reflexivity|].
  apply drop_while_fixed. exact (drop_while_head p s c t E).
Qed.

Lemma drop_while_end_head (p : ascii -> bool) (c : ascii) (t : string) :
  p c = false -> exists t', drop_while_end p (String c t) = String c t'.
Proof.
  intros H. simpl. destruct (drop_while_end p t) as [|a r].
  - rewrite H. eauto.
  - eauto.
Qed.

Lemma drop_while_end_idempotent (p : ascii -> bool) (s : string) :
  drop_while_end p (drop_while_end p s) = drop_while_end p s.
Proof.
  induction s as [|c s IH]; [reflexivity|]. simpl.
  destruct (drop_while_end p s) as [|a r] eqn:E.
  - destruct (p c) eqn:Ec; [reflexivity|]. simpl. rewrite Ec. reflexivity.
  - change (drop_while_end p (String c (String a r)))
      with (match drop_while_end p (String a r) with
            | EmptyString => if p c then EmptyString else String c EmptyString
            | String x y => String c (String x y)
            end).
    rewrite IH. reflexivity.
Qed.

Lemma strip_idempotent (s : string) : strip (strip s) = strip s.
Proof.
  unfold strip.
  destruct (drop_while is_space s) as [|c t] eqn:E; [reflexivity|].
  pose proof (drop_while_head is_space s c t E) as Hc.
  destruct (drop_while_end_head is_space c t Hc) as (t' & Et).
  rewrite Et at 1. rewrite (drop_while_fixed is_space c t' Hc). rewrite <- Et.
  apply drop_while_end_idempotent.
Qed.

Lemma append_length (a b : string) :
  String.length (a ++ b) = (String.length a + String.length b)%nat.
Proof. induction a as [|c a IH]; simpl; [reflexivity|]. rewrite IH. reflexivity. Qed.

Lemma append_cancel (a b b' : string) : a ++ b = a ++ b' -> b = b'.
Proof.
  induction a as [|c a IH]; simpl; [auto|].
  intros H. injection H as H. auto.
Qed.

Lemma drop_while_end_length (p : ascii -> bool) (s : string) :
  (String.length (drop_while_end p s) <= String.length s)%nat.
Proof.
  induction s as [|c s IH]; simpl; [lia|].
  destruct (drop_while_end p s) as [|a r].
  - destruct (p c); simpl; lia.
  - simpl in *. lia.
Qed.

Lemma drop_while_end_app (p : ascii -> bool) (a b : string) :
  drop_while_end p (a ++ b)
  = match drop_while_end p b with
    | EmptyString => drop_while_end p a
    | r => a ++ r
    end.
Proof.
  induction a as [|c a IH]; simpl.
  - destruct (drop_while_end p b); reflexivity.
  - rewrite IH. destruct (drop_while_end p b) as [|x y] eqn:E; [reflexivity|].
    destruct (a ++ String x y) as [|u v] eqn:Ea; [|reflexivity].
    destruct a; discriminate Ea.
Qed.

(** A suffix of a string without trailing blanks has none either. *)
Lemma drop_while_end_suffix (p : ascii -> bool) (a b : string) :
  drop_while_end p (a ++ b) = a ++ b -> drop_while_end p b = b.
Proof.
  rewrite drop_while_end_app.
  destruct (drop_while_end p b) as [|x y] eqn:E.
  - intros H.
    pose proof (drop_while_end_length p a) as Hl.
    rewrite H, append_length in Hl.
    destruct b; [reflexivity|simpl in Hl; lia].
  - intros H. apply append_cancel in H. exact H.
Qed.

(** The subreddit of a kept item is cleaned by [strip] and [lstrip]
    again unless it begins with a blank. *)
Lemma subreddit_fixed (raw : string) :
  let sub := lstrip "r/" (strip raw) in
  drop_while is_space sub = sub -> lstrip "r/" (strip sub) = sub.
Proof.
  intros sub Hlead.
  assert (Hstrip : strip sub = sub).
  { unfold strip. rewrite Hlead.
    destruct (drop_while_suffix (fun c => mem_char c "r/") (strip raw))
      as (pre & E & _).
    apply (drop_while_end_suffix is_space pre).
    fold (lstrip "r/" (strip raw)) in E. fold sub in E. rewrite <- E.
    unfold strip. apply drop_while_end_idempotent. }
  rewrite Hstrip. unfold sub, lstrip. apply drop_while_idempotent.
Qed.

(* ================================================================== *)
(** * Parsing a result again *)
(* ================================================================== *)

(** The validation of the dict of an item. *)
Lemma clean_entry_to_dict (j : nat) (c : clean_item) :
  truthy (item_url c) = true ->
  py_in "reddit.com" (item_url c) = Ok true ->
  clean_entry j (to_dict c)
  = Ok (Some {| item_id := make_id j;
                item_title := strip (item_title c);
                item_url := item_url c;
                item_subreddit := lstrip "r/" (strip (item_subreddit c));
                item_date := validate_date (item_date c);
                item_why_relevant := strip (item_why_relevant c);
                item_relevance := clamp (item_relevance c) |}).
Proof.
  intros Hu Hd. destruct c as [id title url sub date why rel]. simpl in Hu, Hd.
  unfold clean_entry, to_dict.
  change (dict_get "url" _ (VStr "")) with url.
  change (dict_get "relevance" _ (VFloat float_half)) with (VFloat rel).
  change (dict_get "title" _ (VStr "")) with (VStr title).
  change (dict_get "subreddit" _ (VStr "")) with (VStr sub).
  change (dict_get "why_relevant" _ (VStr "")) with (VStr why).
  change (dict_get "date" _ VNone) with date.
  rewrite Hu. simpl negb. cbv iota. rewrite Hd. reflexivity.
Qed.

Lemma reclean_entry (i j : nat) (item : pyval) (c : clean_item) :
  clean_entry i item = Ok (Some c) ->
  exists c', clean_entry j (to_dict c) = Ok (Some c') /\ renormalized c c'.
Proof.
  intros H. apply clean_entry_kept in H as (d & x & _ & Hu & Hd & _ & ->).
  eexists. split; [apply clean_entry_to_dict; assumption|].
  unfold renormalized, same_fields_but_subreddit. simpl.
  rewrite !strip_idempotent, validate_date_idempotent, clamp_idempotent.
  repeat split. apply subreddit_fixed.
Qed.

Lemma reclean_loop (out : list clean_item) :
  Forall (fun c => exists i item, clean_entry i item = Ok (Some c)) out ->
  forall j, exists out',
    clean_loop j (map to_dict out) = Ok out' /\ Forall2 renormalized out out'.
Proof.
  induction 1 as [|c out (i & item & Hc) _ IH]; intros j.
  - exists []. split; [reflexivity|constructor].
  - destruct (reclean_entry i j item c Hc) as (c' & Hc' & Hr).
    destruct (IH (S j)) as (out' & Ho & Hf).
    exists (c' :: out'). split.
    + cbn [map clean_loop]. rewrite Hc'. cbn [bind]. rewrite Ho. reflexivity.
    + constructor; assumption.
Qed.

(** C8, as worded, fails: the subreddit "r/ rust" is normalized to
    " rust", and parsing the serialized result again turns it into
    "ust". *)
Lemma reparse_changes_subreddit :
  exists c c',
    parsed false spaced_subreddit_response = Ok [c]
    /\ parsed false (reembed [c]) = Ok [c']
    /\ item_subreddit c = " rust"
    /\ item_subreddit c' = "ust"
    /\ ~ same_fields c c'.
Proof.
  eexists. eexists.
  split; [vm_compute; reflexivity|].
  split; [vm_compute; reflexivity|].
  split; [reflexivity|]. split; [reflexivity|].
  intros (_ & _ & H & _). discriminate H.
Qed.

(** C8, amended -- parsing a text that carries a result back keeps
    every item, in order, and leaves title, url, date, why_relevant and
    relevance as they are; the subreddit is trimmed and stripped once
    more, which leaves it as it is unless it begins with a blank. *)
Theorem reparse_fixed_point (DEBUG : bool) (response : dict)
    (out : list clean_item) (text : string) :
  parsed DEBUG response = Ok out ->
  reembeds text out ->
  exists out',
    parsed DEBUG [("output", VStr text)] = Ok out'
    /\ Forall2 renormalized out out'.
Proof.
  intros H (t & data & Hs & Hl & Hg).
  assert (Hclean : Forall (fun c => exists i item, clean_entry i item = Ok (Some c)) out).
  { apply Forall_forall. intros c Hin. exact (parsed_item _ _ _ _ H Hin). }
  destruct (reclean_loop out Hclean 0%nat) as (out' & Ho & Hf).
  exists out'. split; [|exact Hf].
  destruct text as [|a text']; [discriminate Hs|].
  unfold parsed, parse_reddit_response.
  change (dict_mem "error" [("output", VStr (String a text'))]) with false.
  change (find_output_text [("output", VStr (String a text'))])
    with (Ok (VStr (String a text'))).
  cbn [andb negb truthy String.eqb snd].
  unfold extract_items, search_items. cbn [bind]. rewrite Hs, Hl, Hg. cbn [bind].
  unfold clean_items, items_value. cbn [py_iter bind].
  exact Ho.
Qed.

Lemma reparse_fixed_point_witness :
  let c := {| item_id := "R2";
              item_title := "A";
              item_url := VStr "https://reddit.com/r/a";
              item_subreddit := "selfhosted";
              item_date := VStr "2024-01-02";
              item_why_relevant := "w";
              item_relevance := float_one |} in
  exists out',
    parsed false
      [("output", VStr (json_dumps (VDict [("items", items_value [c])])))]
    = Ok out'
    /\ Forall2 renormalized [c] out'.
Proof.
  intros c.
  apply (reparse_fixed_point false
           [("output",
             VStr (qq ("{'items':[0,{'title':' A','url':'https://reddit.com/r/a',"
                       ++ "'subreddit':'r/selfhosted','date':'2024-01-02',"
                       ++ "'why_relevant':'w ','relevance':7}]}")))]).
  - vm_compute. reflexivity.
  - eexists. eexists. split; [vm_compute; reflexivity|].
    split; vm_compute; reflexivity.
Defined.

(* ================================================================== *)
(** * Text extraction *)
(* ================================================================== *)

Lemma scan_content_offer (content : list pyval) (previous : pyval) :
  scan_content content previous = or_previous (content_text content) previous.
Proof.
  induction content as [|c content IH]; simpl; [reflexivity|].
  destruct c as [ | | | | | |d]; try exact IH.
  destruct (py_eq_str (dict_get "type" d VNone) "output_text"); [reflexivity|exact IH].
Qed.

(** The body of the loop assigns what the entry offers and keeps the
    previous text when it offers nothing. *)
Lemma scan_entry_offer (item : pyval) (previous : pyval) :
  scan_entry item previous
  = (o <- entry_text item ;; Ok (or_previous o previous)).
Proof.
  destruct item as [ | | | |s|l|d]; try reflexivity. simpl.
  destruct (py_eq_str (dict_get "type" d VNone) "message").
  - destruct (py_iter (dict_get "content" d (VList []))) as [content|]; simpl;
      [|reflexivity].
    rewrite scan_content_offer. reflexivity.
  - unfold dict_mem, dict_index. simpl.
    destruct (dict_lookup "text" d); reflexivity.
Qed.

(** The first entry that offers a true text ends the scan of the
    output; the entries after it are not looked at. *)
Lemma scan_output_first (pre : list pyval) (e : pyval) (post : list pyval)
    (t : pyval) :
  Forall offers_nothing pre ->
  entry_text e = Ok (Some t) -> truthy t = true ->
  forall previous, truthy previous = false ->
    scan_output (pre ++ e :: post) previous = Ok t.
Proof.
  intros Hpre He Ht. induction Hpre as [|a pre (o & Ho & Hfalse) _ IH];
    intros previous Hp.
  - change (scan_output ([] ++ e :: post) previous)
      with (text <- scan_entry e previous ;;
            if truthy text then Ok text else scan_output post text).
    rewrite scan_entry_offer, He. cbn [bind or_previous].
    rewrite Ht. reflexivity.
  - change (scan_output ((a :: pre) ++ e :: post) previous)
      with (text <- scan_entry a previous ;;
            if truthy text then Ok text else scan_output (pre ++ e :: post) text).
    rewrite scan_entry_offer, Ho. cbn [bind].
    assert (Hf : truthy (or_previous o previous) = false).
    { destruct o as [v|]; [apply Hfalse; reflexivity|exact Hp]. }
    rewrite Hf. apply IH. exact Hf.
Qed.

(** The first choice that has a message ends the scan of the choices. *)
Lemma scan_choices_first (pre : list pyval) (c : pyval) (post : list pyval)
    (m previous : pyval) :
  Forall lacks_message pre ->
  py_in "message" c = Ok true -> py_index c "message" = Ok m ->
  scan_choices (pre ++ c :: post) previous = py_get m "content" (VStr "").
Proof.
  intros Hpre Hin Hm. induction Hpre as [|a pre Ha _ IH].
  - change (scan_choices ([] ++ c :: post) previous)
      with (has_message <- py_in "message" c ;;
            if has_message
            then message <- py_index c "message" ;; py_get message "content" (VStr "")
            else scan_choices post previous).
    rewrite Hin. cbn [bind]. rewrite Hm. reflexivity.
  - change (scan_choices ((a :: pre) ++ c :: post) previous)
      with (has_message <- py_in "message" a ;;
            if has_message
            then message <- py_index a "message" ;; py_get message "content" (VStr "")
            else scan_choices (pre ++ c :: post) previous).
    unfold lacks_message in Ha. rewrite Ha. cbn [bind].
    exact IH.
Qed.

Lemma dict_mem_lookup (k : string) (d : dict) (v : pyval) :
  dict_lookup k d = Some v -> dict_mem k d = true /\ forall dflt, dict_get k d dflt = v.
Proof.
  intros H. unfold dict_mem, dict_get. rewrite H. split; reflexivity.
Qed.

(** C9, as worded, fails for the legacy shape: when the first choice
    has no message the text is not taken from the first choice but from
    the first later choice that has one. *)
Lemma second_choice_is_used :
  exists first second,
    dict_lookup "choices" second_choice_response = Some (VList [first; second])
    /\ output_text_of_output second_choice_response = Ok (VStr "")
    /\ find_output_text second_choice_response = Ok (VStr "hi")
    /\ first_choice_content [second] = Ok (VStr "hi")
    /\ first_choice_content [first; second] = Raise KeyError
    /\ find_output_text second_choice_response
       <> first_choice_content [first; second].
Proof.
  eexists. eexists. split; [reflexivity|].
  repeat split; try reflexivity. discriminate.
Qed.

(** C9, amended -- the shapes are tried in a fixed order and the first
    match wins.  (1) A string output that is not empty is the text,
    verbatim.  (2) In a list-valued output the first entry that offers
    a true text gives it, whatever follows; an entry offers, for a
    message, the text of its first content entry of type output_text,
    for another mapping its text field, for a plain string itself.
    (3) A true text found under output is the result, whatever the
    choices hold.  (4) When no true text was found under output, the
    text is the [message.content] of the first choice that has a
    message.  (5) Without choices the text stays as it is. *)
Theorem text_extraction_priority (response : dict) :
  (forall s,
     dict_lookup "output" response = Some (VStr s) -> s <> "" ->
     find_output_text response = Ok (VStr s))
  /\ (forall pre e post t,
        dict_lookup "output" response = Some (VList (pre ++ e :: post)) ->
        Forall offers_nothing pre ->
        entry_text e = Ok (Some t) -> truthy t = true ->
        find_output_text response = Ok t)
  /\ (forall t,
        output_text_of_output response = Ok t -> truthy t = true ->
        find_output_text response = Ok t)
  /\ (forall t pre c post m,
        output_text_of_output response = Ok t -> truthy t = false ->
        dict_lookup "choices" response = Some (VList (pre ++ c :: post)) ->
        Forall lacks_message pre ->
        py_in "message" c = Ok true -> py_index c "message" = Ok m ->
        find_output_text response = py_get m "content" (VStr ""))
  /\ (forall t,
        output_text_of_output response = Ok t -> truthy t = false ->
        dict_lookup "choices" response = None ->
        find_output_text response = Ok t).
Proof.
  assert (Hfound : forall t,
            output_text_of_output response = Ok t -> truthy t = true ->
            find_output_text response = Ok t).
  { intros t Ho Ht. unfold find_output_text. rewrite Ho. cbn [bind].
    rewrite Ht. reflexivity. }
  split; [|split; [|split; [exact Hfound|split]]].
  - intros s Hl Hs. apply Hfound.
    + unfold output_text_of_output.
      destruct (dict_mem_lookup _ _ _ Hl) as (-> & ->). reflexivity.
    + simpl. destruct s; [contradiction|reflexivity].
  - intros pre e post t Hl Hpre He Ht. apply Hfound; [|exact Ht].
    unfold output_text_of_output.
    destruct (dict_mem_lookup _ _ _ Hl) as (-> & ->).
    apply scan_output_first; auto.
  - intros t pre c post m Ho Ht Hl Hpre Hin Hm.
    unfold find_output_text. rewrite Ho. cbn [bind]. rewrite Ht.
    destruct (dict_mem_lookup _ _ _ Hl) as (-> & ->).
    cbn [negb andb py_iter bind]. apply scan_choices_first; assumption.
  - intros t Ho Ht Hl. unfold find_output_text. rewrite Ho. cbn [bind].
    unfold dict_mem. rewrite Hl, Ht. reflexivity.
Qed.

Lemma text_extraction_priority_witness :
  find_output_text
    [ ("output",
       VList [ VInt 1;
               VDict [("type", VStr "message");
                      ("content",
                       VList [VDict [("type", VStr "output_text"); ("text", VStr "")];
                              VDict [("type", VStr "output_text"); ("text", VStr "A")]])];
               VDict [("type", VStr "reasoning"); ("text", VStr "B")];
               VInt 7 ]);
      ("choices", VInt 5) ]
  = Ok (VStr "B")
  /\ find_output_text second_choice_response = Ok (VStr "hi").
Proof.
  split.
  - apply (proj1 (proj2 (text_extraction_priority _))
             [ VInt 1;
               VDict [("type", VStr "message");
                      ("content",
                       VList [VDict [("type", VStr "output_text"); ("text", VStr "")];
                              VDict [("type", VStr "output_text"); ("text", VStr "A")]])] ]
             (VDict [("type", VStr "reasoning"); ("text", VStr "B")])
             [VInt 7] (VStr "B")).
    + reflexivity.
    + repeat constructor.
      * exists None. split; [reflexivity|discriminate].
      * exists (Some (VStr "")). split; [reflexivity|].
        intros t E. injection E as <-. reflexivity.
    + reflexivity.
    + reflexivity.
  - apply (proj1 (proj2 (proj2 (proj2 (text_extraction_priority second_choice_response))))
             (VStr "") [VDict []]
             (VDict [("message", VDict [("content", VStr "hi")])]) []
             (VDict [("content", VStr "hi")])).
    + reflexivity.
    + reflexivity.
    + reflexivity.
    + repeat constructor.
    + reflexivity.
    + reflexivity.
Defined.

(* ================================================================== *)
(** * What the result of the parser depends on *)
(* ================================================================== *)

Lemma output_text_of_output_agree (r1 r2 : dict) :
  dict_lookup "output" r1 = dict_lookup "output" r2 ->
  output_text_of_output r1 = output_text_of_output r2.
Proof.
  intros H. unfold output_text_of_output, dict_mem, dict_get. rewrite H. reflexivity.
Qed.

Lemma find_output_text_agree (r1 r2 : dict) :
  dict_lookup "output" r1 = dict_lookup "output" r2 ->
  dict_lookup "choices" r1 = dict_lookup "choices" r2 ->
  find_output_text r1 = find_output_text r2.
Proof.
  intros Ho Hc. unfold find_output_text.
  rewrite (output_text_of_output_agree r1 r2 Ho).
  unfold dict_mem, dict_get. rewrite Hc. reflexivity.
Qed.

(** X1 -- the debug flag changes what is logged, never what is returned. *)
Theorem debug_flag_keeps_result (response : dict) :
  parsed true response = parsed false response.
Proof.
  unfold parsed, parse_reddit_response.
  destruct (dict_mem "error" response && truthy (dict_get "error" response VNone));
    reflexivity.
Qed.

(** X2 -- the list returned depends on the fields [error], [output] and
    [choices] only: two responses that agree on them give the same
    result, whatever other keys they hold and in whatever order. *)
Theorem parsed_depends_on_three_fields (DEBUG : bool) (r1 r2 : dict) :
  dict_lookup "error" r1 = dict_lookup "error" r2 ->
  dict_lookup "output" r1 = dict_lookup "output" r2 ->
  dict_lookup "choices" r1 = dict_lookup "choices" r2 ->
  parsed DEBUG r1 = parsed DEBUG r2.
Proof.
  intros He Ho Hc. unfold parsed, parse_reddit_response.
  rewrite (find_output_text_agree r1 r2 Ho Hc).
  unfold dict_mem, dict_get. rewrite He.
  destruct (match dict_lookup "error" r2 with Some _ => true | None => false end
            && truthy match dict_lookup "error" r2 with
                      | Some v => v
                      | None => VNone
                      end); [reflexivity|].
  destruct (find_output_text r2) as [text|]; [|reflexivity].
  destruct (negb (truthy text)); reflexivity.
Qed.

Lemma parsed_depends_on_three_fields_witness :
  parsed false
    [ ("id", VStr "resp_1"); ("output", VStr scenario_text); ("usage", VInt 7) ]
  = parsed false scenario_response.
Proof.
  apply parsed_depends_on_three_fields; reflexivity.
Defined.

(** X3 -- an [error] field that is present but false (null, as a successful
    response carries it, an empty string or mapping, 0) does not stop
    the parser: the result is that of the response without the field. *)
Theorem false_error_is_ignored (DEBUG : bool) (error : pyval) (response : dict) :
  truthy error = false ->
  dict_lookup "error" response = None ->
  parsed DEBUG (("error", error) :: response) = parsed DEBUG response.
Proof.
  intros Hf Hn. unfold parsed, parse_reddit_response.
  rewrite (find_output_text_agree (("error", error) :: response) response)
    by reflexivity.
  unfold dict_mem, dict_get. rewrite Hn. cbn [dict_lookup String.eqb Ascii.eqb Bool.eqb].
  rewrite Hf. cbn [andb].
  destruct (find_output_text response) as [text|]; [|reflexivity].
  destruct (negb (truthy text)); reflexivity.
Qed.

Lemma false_error_is_ignored_witness :
  parsed false (("error", VNone) :: scenario_response)
  = parsed false scenario_response.
Proof.
  apply false_error_is_ignored; reflexivity.
Defined.

(** X4 -- whenever the parser writes a diagnostic it returns the empty list:
    a call that returns items, or that raises, has written nothing. *)
Theorem diagnostic_means_empty_result (DEBUG : bool) (response : dict) :
  fst (parse_reddit_response DEBUG response) = []
  \/ snd (parse_reddit_response DEBUG response) = Ok [].
Proof.
  unfold parse_reddit_response.
  destruct (dict_mem "error" response && truthy (dict_get "error" response VNone));
    [right; reflexivity|].
  destruct (find_output_text response) as [text|]; [|left; reflexivity].
  destruct (negb (truthy text)); [right|left]; reflexivity.
Qed.

(* ================================================================== *)
(** * Ids are distinct *)
(* ================================================================== *)

Lemma str_of_int_positive_inj (n m : Z) :
  0 < n -> 0 < m -> str_of_int n = str_of_int m -> n = m.
Proof.
  intros Hn Hm H. unfold str_of_int in H.
  assert (Hisi : forall z, 0 < z ->
            NilZero.int_of_string (NilZero.string_of_int (Z.to_int z))
            = Some (Z.to_int z)).
  { intros z Hz. destruct z as [|p|p]; try lia.
    apply NilZero.isi; simpl; intros E; [|discriminate E].
    injection E as E. exact (Unsigned.to_uint_nonnil p E). }
  pose proof (Hisi n Hn) as E1. pose proof (Hisi m Hm) as E2.
  rewrite H in E1. rewrite E1 in E2. injection E2 as E2.
  apply DecimalZ.to_int_inj. exact E2.
Qed.

Lemma make_id_inj (i j : nat) : make_id i = make_id j -> i = j.
Proof.
  unfold make_id. intros H. injection H as H.
  apply str_of_int_positive_inj in H; lia.
Qed.

Lemma Forall2_In_right {A B : Type} (R : A -> B -> Prop) (l : list A) (l' : list B)
    (b : B) :
  Forall2 R l l' -> In b l' -> exists a, In a l /\ R a b.
Proof.
  intros H. induction H as [|a0 b0 l l' Hab _ IH]; intros Hin; [contradiction|].
  destruct Hin as [<-|Hin].
  - exists a0. split; [left; reflexivity|exact Hab].
  - destruct (IH Hin) as (a & Ha & HR). exists a. split; [right; exact Ha|exact HR].
Qed.

Lemma sorted_ids_distinct (idxs : list nat) (out : list clean_item) :
  StronglySorted lt idxs ->
  Forall2 (fun j c => item_id c = make_id j) idxs out ->
  NoDup (map item_id out).
Proof.
  intros Hs Hf. induction Hf as [|j c idxs out Hjc Hf IH]; [constructor|].
  apply StronglySorted_inv in Hs as (Hs & Hlt).
  cbn [map]. constructor; [|exact (IH Hs)].
  intros Hin. apply in_map_iff in Hin as (c' & Hid & Hc').
  destruct (Forall2_In_right _ _ _ _ Hf Hc') as (j' & Hj' & Hid').
  rewrite Forall_forall in Hlt. specialize (Hlt j' Hj').
  assert (j = j') by (apply make_id_inj; congruence). lia.
Qed.

(** X5 -- the ids of the items of a result are pairwise distinct. *)
Theorem ids_are_distinct (DEBUG : bool) (response : dict) (out : list clean_item) :
  parsed DEBUG response = Ok out -> NoDup (map item_id out).
Proof.
  intros H. apply parsed_inv in H as [->|(items & entries & _ & H)]; [constructor|].
  destruct (clean_loop_indices entries 0%nat out H) as (idxs & Hs & Hf & _).
  apply (sorted_ids_distinct idxs out Hs).
  eapply Forall2_impl; [|exact Hf].
  intros j c (_ & Hid & _). exact Hid.
Qed.

Lemma ids_are_distinct_witness :
  NoDup (map item_id
           [ {| item_id := "R1";
                item_title := "T";
                item_url := VStr "https://reddit.com/r/x/comments/1/t/";
                item_subreddit := "";
                item_date := VNone;
                item_why_relevant := "";
                item_relevance := float_one |} ]).
Proof.
  apply (ids_are_distinct false scenario_response). vm_compute. reflexivity.
Defined.

(* ================================================================== *)
(** * Trimmed fields *)
(* ================================================================== *)

Lemma drop_while_end_last (p : ascii -> bool) (s : string) (a : ascii) :
  last_char (drop_while_end p s) = Some a -> p a = false.
Proof.
  induction s as [|c s IH]; [discriminate|]. cbn [drop_while_end].
  destruct (drop_while_end p s) as [|x r] eqn:E.
  - destruct (p c) eqn:Ec; [discriminate|].
    intros H. injection H as <-. exact Ec.
  - intros H. apply IH. exact H.
Qed.

Lemma strip_trimmed (s : string) : trimmed (strip s).
Proof.
  unfold trimmed, strip. split; intros a H.
  - destruct (drop_while is_space s) as [|c t] eqn:E; [discriminate H|].
    pose proof (drop_while_head is_space s c t E) as Hc.
    destruct (drop_while_end_head is_space c t Hc) as (t' & Et).
    rewrite Et in H. injection H as <-. exact Hc.
  - exact (drop_while_end_last is_space _ a H).
Qed.

Lemma last_char_app (a b : string) :
  b <> "" -> last_char (a ++ b) = last_char b.
Proof.
  intros Hb. induction a as [|c a IH]; [reflexivity|].
  cbn [append last_char]. destruct (a ++ b) as [|x y] eqn:E.
  - destruct a; [simpl in E; contradiction|discriminate E].
  - exact IH.
Qed.

(** X6 -- the title and the reason of every item are trimmed: neither begins
    nor ends with a blank; the subreddit never ends with one. *)
Theorem text_fields_are_trimmed (DEBUG : bool) (response : dict)
    (out : list clean_item) (c : clean_item) :
  parsed DEBUG response = Ok out -> In c out ->
  trimmed (item_title c)
  /\ trimmed (item_why_relevant c)
  /\ forall a, last_char (item_subreddit c) = Some a -> is_space a = false.
Proof.
  intros H Hin.
  destruct (parsed_item _ _ _ _ H Hin) as (i & item & He).
  apply clean_entry_kept in He as (d & x & _ & _ & _ & _ & ->). cbn.
  split; [apply strip_trimmed|]. split; [apply strip_trimmed|].
  intros a Ha.
  destruct (drop_while_suffix (fun ch => mem_char ch "r/")
              (strip (py_str (dict_get "subreddit" d (VStr "")))))
    as (pre & E & _).
  fold (lstrip "r/" (strip (py_str (dict_get "subreddit" d (VStr ""))))) in E.
  apply (proj2 (strip_trimmed (py_str (dict_get "subreddit" d (VStr ""))))).
  rewrite E. rewrite last_char_app; [exact Ha|].
  intros E0. rewrite E0 in Ha. discriminate Ha.
Qed.

Lemma text_fields_are_trimmed_witness :
  let c := {| item_id := "R2";
              item_title := "A";
              item_url := VStr "https://reddit.com/r/a";
              item_subreddit := "selfhosted";
              item_date := VStr "2024-01-02";
              item_why_relevant := "w";
              item_relevance := float_one |} in
  trimmed (item_title c)
  /\ trimmed (item_why_relevant c)
  /\ forall a, last_char (item_subreddit c) = Some a -> is_space a = false.
Proof.
  intros c.
  apply (text_fields_are_trimmed false
           [("output",
             VStr (qq ("{'items':[0,{'title':' A','url':'https://reddit.com/r/a',"
                       ++ "'subreddit':'r/selfhosted','date':'2024-01-02',"
                       ++ "'why_relevant':'w ','relevance':7}]}")))] [c] c).
  - vm_compute. reflexivity.
  - left. reflexivity.
Defined.

(* ================================================================== *)
(** * When the validation raises *)
(* ================================================================== *)

(** The index of an entry decides its id only. *)
Lemma clean_entry_index (i j : nat) (item : pyval) :
  clean_entry j item
  = match clean_entry i item with
    | Ok (Some c) =>
        Ok (Some {| item_id := make_id j;
                    item_title := item_title c;
                    item_url := item_url c;
                    item_subreddit := item_subreddit c;
                    item_date := item_date c;
                    item_why_relevant := item_why_relevant c;
                    item_relevance := item_relevance c |})
    | Ok None => Ok None
    | Raise e => Raise e
    end.
Proof.
  destruct item as [ | | | | | |d]; try reflexivity. cbn [clean_entry].
  destruct (negb (truthy (dict_get "url" d (VStr "")))); [reflexivity|].
  destruct (py_in "reddit.com" (dict_get "url" d (VStr ""))) as [[|]|];
    cbn [bind negb]; try reflexivity.
  destruct (py_float (dict_get "relevance" d (VFloat float_half))); reflexivity.
Qed.

Lemma entry_raises_none (i : nat) (item : pyval) :
  entry_raises item = None -> exists k, clean_entry i item = Ok k.
Proof.
  unfold entry_raises. rewrite (clean_entry_index 0 i).
  destruct (clean_entry 0 item) as [[c|]|e]; [eauto|eauto|discriminate].
Qed.

Lemma entry_raises_some (i : nat) (item : pyval) (e : exn) :
  entry_raises item = Some e -> clean_entry i item = Raise e.
Proof.
  unfold entry_raises. rewrite (clean_entry_index 0 i).
  destruct (clean_entry 0 item) as [[c|]|e']; try discriminate.
  intros H. injection H as <-. reflexivity.
Qed.

Lemma plain_entry_never_raises (item : pyval) :
  plain_entry item -> entry_raises item = None.
Proof.
  intros (d & -> & Hu & Hr). unfold entry_raises. cbn [clean_entry].
  destruct (dict_get "url" d (VStr "")) as [ | | | |s| | ]; try discriminate Hu.
  destruct (negb (truthy (VStr s))); [reflexivity|].
  cbn [py_in bind]. destruct (negb (contains "reddit.com" s)); [reflexivity|].
  unfold dict_get. destruct Hr as [-> | (x & ->)]; reflexivity.
Qed.

Lemma clean_loop_length (entries : list pyval) :
  forall i out, clean_loop i entries = Ok out -> (List.length out <= List.length entries)%nat.
Proof.
  induction entries as [|item entries IH]; intros i out H.
  - injection H as <-. simpl. lia.
  - apply clean_loop_cons in H as (kept & rest & _ & Hr & ->).
    apply IH in Hr. destruct kept; simpl; lia.
Qed.

Lemma clean_loop_no_failure (entries : list pyval) :
  forall i,
    (forall item, In item entries -> entry_raises item = None) ->
    exists out, clean_loop i entries = Ok out.
Proof.
  induction entries as [|item entries IH]; intros i Hall.
  - exists []. reflexivity.
  - destruct (entry_raises_none i item (Hall item (or_introl eq_refl))) as (k & Hk).
    destruct (IH (S i) (fun it Hin => Hall it (or_intror Hin))) as (out & Ho).
    eexists. cbn [clean_loop]. rewrite Hk. cbn [bind]. rewrite Ho. reflexivity.
Qed.

(** X7 -- the validation returns a list exactly when no entry raises. *)
Theorem validation_returns_iff_no_entry_raises (i : nat) (entries : list pyval) :
  (exists out, clean_loop i entries = Ok out)
  <-> (forall item, In item entries -> entry_raises item = None).
Proof.
  split; [|apply clean_loop_no_failure].
  revert i. induction entries as [|item entries IH]; intros i (out & H) it Hin.
  - destruct Hin.
  - apply clean_loop_cons in H as (kept & rest & Hk & Hr & _).
    destruct Hin as [<-|Hin].
    + unfold entry_raises. rewrite (clean_entry_index i 0), Hk.
      destruct kept; reflexivity.
    + exact (IH (S i) (ex_intro _ rest Hr) it Hin).
Qed.

(** X8 -- when an entry raises, the exception of the first such entry is
    raised by the validation, and the items of the entries before it
    are lost with it. *)
Theorem first_failure_aborts (i : nat) (before after : list pyval)
    (bad : pyval) (e : exn) :
  (forall item, In item before -> entry_raises item = None) ->
  entry_raises bad = Some e ->
  clean_loop i (before ++ bad :: after) = Raise e.
Proof.
  revert i. induction before as [|item before IH]; intros i Hall Hbad.
  - change ([] ++ bad :: after)%list with (bad :: after).
    cbn [clean_loop]. rewrite (entry_raises_some i bad e Hbad). reflexivity.
  - destruct (entry_raises_none i item (Hall item (or_introl eq_refl))) as (k & Hk).
    change ((item :: before) ++ bad :: after)%list
      with (item :: (before ++ bad :: after))%list.
    cbn [clean_loop]. rewrite Hk. cbn [bind].
    rewrite (IH (S i) (fun it Hin => Hall it (or_intror Hin)) Hbad).
    reflexivity.
Qed.

Lemma first_failure_aborts_witness :
  clean_loop 0
    ([ VDict [("url", VStr "https://reddit.com/r/a")]; VInt 3 ]
     ++ VDict [("url", VStr "https://reddit.com/r/b"); ("relevance", VStr "high")]
     :: [ VDict [("url", VStr "https://reddit.com/r/c")] ])
  = Raise ValueError.
Proof.
  apply first_failure_aborts.
  - intros item [<-|[<-|[]]]; reflexivity.
  - reflexivity.
Defined.

(** X9 -- entries that are not mappings, and mappings whose url is a string
    and whose relevance is absent or a float, never make the validation
    raise; the list it returns is no longer than the list of entries. *)
Theorem plain_entries_are_validated (i : nat) (entries : list pyval) :
  (forall item, In item entries -> is_dict item = false \/ plain_entry item) ->
  exists out,
    clean_loop i entries = Ok out
    /\ (List.length out <= List.length entries)%nat.
Proof.
  intros Hall.
  destruct (clean_loop_no_failure entries i) as (out & Ho).
  - intros item Hin. destruct (Hall item Hin) as [Hd|Hp].
    + destruct item; try reflexivity. discriminate Hd.
    + exact (plain_entry_never_raises item Hp).
  - exists out. split; [exact Ho|]. exact (clean_loop_length entries i out Ho).
Qed.

Lemma plain_entries_are_validated_witness :
  exists out,
    clean_loop 0
      [ VInt 3;
        VDict [("url", VStr "https://example.com/a"); ("relevance", VFloat float_one)] ]
    = Ok out
    /\ (List.length out
        <= List.length
             [ VInt 3;
               VDict [("url", VStr "https://example.com/a");
                      ("relevance", VFloat float_one)] ])%nat.
Proof.
  apply plain_entries_are_validated.
  intros item [<-|[<-|[]]].
  - left. reflexivity.
  - right. eexists. split; [reflexivity|]. split; [reflexivity|].
    right. eexists. reflexivity.
Defined.

(* ================================================================== *)
(** * How the validation composes *)
(* ================================================================== *)

Lemma bind_assoc {A B C : Type} (c : result A) (f : A -> result B)
    (g : B -> result C) :
  bind (bind c f) g = bind c (fun a => bind (f a) g).
Proof. destruct c; reflexivity. Qed.

(** X10 -- validating a list made of two parts gives the items of the first
    part followed by those of the second, validated from the index
    where the first part ends. *)
Theorem clean_loop_app (i : nat) (l1 l2 : list pyval) :
  clean_loop i (l1 ++ l2)
  = (out1 <- clean_loop i l1 ;;
     out2 <- clean_loop (i + List.length l1) l2 ;;
     Ok (out1 ++ out2)%list).
Proof.
  revert i. induction l1 as [|item l1 IH]; intros i.
  - change ([] ++ l2)%list with l2. cbn [clean_loop List.length bind].
    rewrite Nat.add_0_r.
    destruct (clean_loop i l2); reflexivity.
  - change ((item :: l1) ++ l2)%list with (item :: (l1 ++ l2))%list.
    cbn [clean_loop List.length]. rewrite IH.
    replace (i + S (List.length l1))%nat with (S i + List.length l1)%nat by lia.
    destruct (clean_entry i item) as [kept|e]; [|reflexivity]. cbn [bind].
    destruct (clean_loop (S i) l1) as [out1|e]; [|reflexivity]. cbn [bind].
    destruct (clean_loop (S i + List.length l1) l2) as [out2|e]; [|reflexivity].
    cbn [bind]. destruct kept; reflexivity.
Qed.

(* ================================================================== *)
(** * Entries that are all kept *)
(* ================================================================== *)

Lemma thread_entry_kept (i : nat) (item : pyval) :
  thread_entry item ->
  exists c, clean_entry i item = Ok (Some c) /\ item_id c = make_id i.
Proof.
  intros (d & s & -> & Hu & Hc & Hr). cbn [clean_entry]. rewrite Hu.
  assert (Hs : truthy (VStr s) = true).
  { destruct s; [discriminate Hc|reflexivity]. }
  rewrite Hs. cbn [negb py_in bind]. rewrite Hc. cbn [negb].
  unfold dict_get at 1. destruct Hr as [-> | (x & ->)]; cbn [py_float bind];
    eexists; split; reflexivity.
Qed.

(** X11 -- when every entry is a mapping with a string url of the domain and a
    relevance that is absent or a float, every entry is kept and the
    ids run without a gap from the first index on. *)
Theorem thread_entries_all_kept (i : nat) (entries : list pyval) :
  Forall thread_entry entries ->
  exists out,
    clean_loop i entries = Ok out
    /\ map item_id out = map make_id (seq i (List.length entries)).
Proof.
  intros H. revert i.
  induction H as [|item entries Hitem _ IH]; intros i.
  - exists []. split; reflexivity.
  - destruct (thread_entry_kept i item Hitem) as (c & Hc & Hid).
    destruct (IH (S i)) as (out & Ho & Hids).
    exists (c :: out). split.
    + cbn [clean_loop]. rewrite Hc. cbn [bind]. rewrite Ho. reflexivity.
    + cbn [map List.length seq]. rewrite Hid, Hids. reflexivity.
Qed.

Lemma thread_entries_all_kept_witness :
  exists out,
    clean_loop 0
      [ VDict [("url", VStr "https://reddit.com/r/a")];
        VDict [("url", VStr "https://old.reddit.com/r/b");
               ("relevance", VFloat float_one)] ]
    = Ok out
    /\ map item_id out = [ "R1"; "R2" ].
Proof.
  apply (thread_entries_all_kept 0
           [ VDict [("url", VStr "https://reddit.com/r/a")];
             VDict [("url", VStr "https://old.reddit.com/r/b");
                    ("relevance", VFloat float_one)] ]).
  repeat constructor.
  - exists [("url", VStr "https://reddit.com/r/a")], "https://reddit.com/r/a".
    repeat split. left. reflexivity.
  - eexists. eexists. split; [reflexivity|]. split; [reflexivity|].
    split; [reflexivity|]. right. eexists. reflexivity.
Defined.

(* ================================================================== *)
(** * The relevance of a kept entry *)
(* ================================================================== *)

(** X12 -- the relevance of a kept entry: 0.5 when the entry has none; a float
    strictly between 0.0 and 1.0 is kept as it is, a float that is not
    above 0.0 (negative, zero of either sign, not-a-number) gives 0.0,
    and any other float gives 1.0. *)
Theorem relevance_of_kept_entry (i : nat) (d : dict) (c : clean_item) :
  clean_entry i (VDict d) = Ok (Some c) ->
  (dict_lookup "relevance" d = None -> item_relevance c = float_half)
  /\ (forall x,
        dict_lookup "relevance" d = Some (VFloat x) ->
        (float_lt float_zero x = true -> float_lt x float_one = true ->
         item_relevance c = x)
        /\ (float_lt float_zero x = false -> item_relevance c = float_zero)
        /\ (float_lt float_zero x = true -> float_lt x float_one = false ->
            item_relevance c = float_one)
        /\ (x = S754_nan -> item_relevance c = float_zero)).
Proof.
  intros H. apply clean_entry_kept in H as (d' & y & E & _ & _ & Hf & ->).
  injection E as <-. cbn [item_relevance]. unfold dict_get in Hf. split.
  - intros Hn. rewrite Hn in Hf. injection Hf as <-. reflexivity.
  - intros x Hx. rewrite Hx in Hf. injection Hf as <-.
    unfold clamp, float_min, float_max. repeat split.
    + intros H0 H1. rewrite H0, H1. reflexivity.
    + intros H0. rewrite H0. reflexivity.
    + intros H0 H1. rewrite H0, H1. reflexivity.
    + intros ->. reflexivity.
Qed.

Lemma relevance_of_kept_entry_witness :
  let d := [("url", VStr "https://reddit.com/r/a")] in
  let c := {| item_id := "R4";
              item_title := "";
              item_url := VStr "https://reddit.com/r/a";
              item_subreddit := "";
              item_date := VNone;
              item_why_relevant := "";
              item_relevance := float_half |} in
  (dict_lookup "relevance" d = None -> item_relevance c = float_half)
  /\ (forall x,
        dict_lookup "relevance" d = Some (VFloat x) ->
        (float_lt float_zero x = true -> float_lt x float_one = true ->
         item_relevance c = x)
        /\ (float_lt float_zero x = false -> item_relevance c = float_zero)
        /\ (float_lt float_zero x = true -> float_lt x float_one = false ->
            item_relevance c = float_one)
        /\ (x = S754_nan -> item_relevance c = float_zero)).
Proof.
  intros d c. apply (relevance_of_kept_entry 3 d c). reflexivity.
Defined.

(* ================================================================== *)
(** * The subreddit of a kept entry *)
(* ================================================================== *)

Lemma trimmed_fixed (s : string) :
  trimmed s -> drop_while is_space s = s /\ drop_while_end is_space s = s.
Proof.
  intros (Hf & Hl). split.
  - destruct s as [|c t]; [reflexivity|].
    apply drop_while_fixed. apply Hf. reflexivity.
  - clear Hf. induction s as [|c s IH]; [reflexivity|].
    cbn [drop_while_end].
    destruct s as [|c' s'].
    + cbn [drop_while_end]. rewrite (Hl c eq_refl). reflexivity.
    + rewrite IH; [reflexivity|]. intros a Ha. apply Hl. exact Ha.
Qed.

(** X13 -- a subreddit written [r/name] or [/r/name] comes out as [name] when
    [name] is trimmed and does not itself begin with [r] or [/]. *)
Theorem subreddit_prefix_removed (i : nat) (d : dict) (c : clean_item)
    (name : string) :
  clean_entry i (VDict d) = Ok (Some c) ->
  trimmed name ->
  starts_with "r" name = false -> starts_with "/" name = false ->
  (dict_lookup "subreddit" d = Some (VStr ("r/" ++ name))
   \/ dict_lookup "subreddit" d = Some (VStr ("/r/" ++ name))) ->
  item_subreddit c = name.
Proof.
  intros H Ht Hr Hs Hsub.
  apply clean_entry_kept in H as (d' & y & E & _ & _ & _ & ->).
  injection E as <-. cbn [item_subreddit]. unfold dict_get.
  destruct (trimmed_fixed name Ht) as (Hlead & Htrail).
  assert (Hname : lstrip "r/" name = name).
  { unfold lstrip. destruct name as [|a t]; [reflexivity|].
    apply drop_while_fixed.
    rewrite starts_with_char in Hr, Hs. cbn [mem_char].
    rewrite Ascii.eqb_sym, Hr, Ascii.eqb_sym, Hs. reflexivity. }
  assert (Hstrip : forall p, (p = "r/" \/ p = "/r/") ->
            lstrip "r/" (strip (p ++ name)) = name).
  { intros p Hp.
    assert (E1 : strip (p ++ name) = p ++ name).
    { unfold strip.
      assert (E0 : drop_while is_space (p ++ name) = p ++ name)
        by (destruct Hp as [-> | ->]; reflexivity).
      rewrite E0, drop_while_end_app, Htrail.
      destruct name; [destruct Hp as [-> | ->]; reflexivity|reflexivity]. }
    rewrite E1. destruct Hp as [-> | ->]; exact Hname. }
  destruct Hsub as [-> | ->]; cbn [py_str]; apply Hstrip; auto.
Qed.

Lemma subreddit_prefix_removed_witness :
  item_subreddit
    {| item_id := "R1";
       item_title := "";
       item_url := VStr "https://reddit.com/r/a";
       item_subreddit := "selfhosted";
       item_date := VNone;
       item_why_relevant := "";
       item_relevance := float_half |}
  = "selfhosted".
Proof.
  apply (subreddit_prefix_removed 0
           [("url", VStr "https://reddit.com/r/a"); ("subreddit", VStr "r/selfhosted")]
           _ "selfhosted").
  - reflexivity.
  - split; intros a E; injection E as <-; reflexivity.
  - reflexivity.
  - reflexivity.
  - left. reflexivity.
Defined.

(* ================================================================== *)
(** * The request of [search_reddit] *)
(* ================================================================== *)



(* ================================================================== *)
(** * The prompt *)
(* ================================================================== *)


(* ================================================================== *)
(** * The search for the embedded object *)
(* ================================================================== *)

Lemma cls_sS_any (c : ascii) : cls_sS c = true.
Proof. unfold cls_sS, cls_s, cls_S. destruct (is_space c); reflexivity. Qed.

Lemma append_assoc (a b c : string) : (a ++ b) ++ c = a ++ b ++ c.
Proof. induction a as [|x a IH]; simpl; [reflexivity|]. rewrite IH. reflexivity. Qed.

Lemma match_lit_spec (lit s rest : string) :
  match_lit lit s = Some rest <-> s = lit ++ rest.
Proof.
  revert s. induction lit as [|a lit IH]; intros s; cbn [match_lit append].
  - split; [intros H; injection H as ->; reflexivity|intros ->; reflexivity].
  - destruct s as [|b s].
    + split; discriminate.
    + destruct (Ascii.eqb_spec a b) as [->|N].
      * rewrite IH. split; [intros ->; reflexivity|intros H; injection H as ->; reflexivity].
      * split; [discriminate|]. intros H. injection H as H _. congruence.
Qed.

Lemma star_any_last_match (k : bool -> string -> option string)
    (g : string -> option string) :
  (forall a v, k a v = g v) ->
  forall t a, match_re (RStar cls_sS) a t k = last_match g t.
Proof.
  intros Hk. induction t as [|c t IH]; intros a.
  - cbn. apply Hk.
  - cbn [match_re last_match]. rewrite cls_sS_any.
    specialize (IH false). cbn [match_re] in IH. rewrite IH.
    destruct (last_match g t); [reflexivity|apply Hk].
Qed.

Lemma match_items_re (a : bool) (s : string) :
  match_re ITEMS_RE a s (fun _ rest => Some rest) = items_at s.
Proof.
  unfold ITEMS_RE, items_at.
  change (match_re (RSeq (RLit "{") ?r) a s ?k)
    with (match match_lit "{" s with
          | Some rest => match_re r (a && negb (is_nonempty "{")) rest k
          | None => None
          end).
  destruct (match_lit "{" s) as [t|]; [|reflexivity].
  change (match_re (RSeq (RStar cls_sS) ?r) ?b t ?k)
    with (match_re (RStar cls_sS) b t (fun a1 s1 => match_re r a1 s1 k)).
  apply star_any_last_match. intros a1 v. unfold after_key.
  change (match_re (RSeq (RLit (qq "'items'")) ?r) a1 v ?k)
    with (match match_lit ITEMS_KEY v with
          | Some rest => match_re r (a1 && negb (is_nonempty ITEMS_KEY)) rest k
          | None => None
          end).
  destruct (match_lit ITEMS_KEY v) as [v1|]; [|reflexivity].
  change (match_re (RSeq (RStar cls_sS) ?r) ?b v1 ?k)
    with (match_re (RStar cls_sS) b v1 (fun a2 s2 => match_re r a2 s2 k)).
  apply star_any_last_match. intros a2 w. unfold after_brace.
  cbn [match_re]. destruct (match_lit "}" w); reflexivity.
Qed.

Lemma search_from_items (s : string) :
  forall a, search_from ITEMS_RE a s = first_items s.
Proof.
  induction s as [|c s IH]; intros a; cbn [search_from first_items];
    rewrite match_items_re.
  - reflexivity.
  - destruct (items_at (String c s)); [reflexivity|apply IH].
Qed.

(** ** The last closing brace *)

Lemma no_brace_no_match (t : string) :
  last_match after_brace t = None <-> mem_char "}" t = false.
Proof.
  induction t as [|c t IH]; cbn [last_match mem_char].
  - split; reflexivity.
  - destruct (last_match after_brace t) as [r|].
    + split; [discriminate|]. intros H.
      apply orb_false_elim in H as (_ & H). apply IH in H. discriminate H.
    + unfold after_brace. cbn [match_lit].
      destruct (Ascii.eqb "}" c); cbn [orb].
      * split; discriminate.
      * rewrite <- IH. split; reflexivity.
Qed.

Lemma last_brace_sound (t r : string) :
  last_match after_brace t = Some r ->
  exists u, t = u ++ "}" ++ r /\ mem_char "}" r = false.
Proof.
  revert r. induction t as [|c t IH]; intros r; cbn [last_match].
  - discriminate.
  - destruct (last_match after_brace t) as [r'|] eqn:E.
    + intros H. injection H as <-. destruct (IH r' eq_refl) as (u & -> & Hr).
      exists (String c u). split; [reflexivity|exact Hr].
    + intros H. apply match_lit_spec in H. exists "". split; [exact H|].
      apply no_brace_no_match. injection H as _ <-. exact E.
Qed.

Lemma last_brace_complete (u r : string) :
  mem_char "}" r = false -> last_match after_brace (u ++ "}" ++ r) = Some r.
Proof.
  intros Hr. induction u as [|c u IH].
  - cbn [append last_match]. apply no_brace_no_match in Hr. rewrite Hr.
    apply match_lit_spec. reflexivity.
  - cbn [append last_match]. cbn [append] in IH. rewrite IH. reflexivity.
Qed.

Lemma last_brace_some (u r : string) :
  exists r', last_match after_brace (u ++ "}" ++ r) = Some r'.
Proof.
  destruct (last_match after_brace (u ++ "}" ++ r)) as [r'|] eqn:E; [eauto|].
  apply no_brace_no_match in E. exfalso.
  clear -E. induction u as [|c u IH]; cbn [append mem_char] in E.
  - rewrite Ascii.eqb_refl in E. discriminate E.
  - apply orb_false_elim in E as (_ & E). exact (IH E).
Qed.

(** ** The key *)

Lemma prefix_split (n h : string) :
  String.prefix n h = true -> exists y, h = n ++ y.
Proof.
  revert h. induction n as [|a n IH]; intros h.
  - exists h. reflexivity.
  - destruct h as [|b h]; [discriminate|]. cbn [String.prefix].
    destruct (ascii_dec a b) as [E|]; [|discriminate]. subst b.
    intros H. destruct (IH h H) as (y & ->). exists y. reflexivity.
Qed.

Lemma prefix_app (n y : string) : String.prefix n (n ++ y) = true.
Proof.
  induction n as [|a n IH]; cbn [append]; [destruct y; reflexivity|].
  cbn [String.prefix]. destruct (ascii_dec a a); [exact IH|contradiction].
Qed.

Lemma contains_split (n h : string) :
  contains n h = true -> exists x y, h = x ++ n ++ y.
Proof.
  induction h as [|c h IH]; cbn [contains]; intros H.
  - apply orb_true_elim in H as [H|H]; [|discriminate H].
    destruct (prefix_split _ _ H) as (y & E). exists "", y. exact E.
  - apply orb_true_elim in H as [H|H].
    + destruct (prefix_split _ _ H) as (y & E). exists "", y. exact E.
    + destruct (IH H) as (x & y & ->). exists (String c x), y. reflexivity.
Qed.

Lemma contains_app (n x y : string) : contains n (x ++ n ++ y) = true.
Proof.
  induction x as [|c x IH].
  - cbn [append]. destruct (n ++ y) eqn:E; cbn [contains];
      rewrite <- E, prefix_app; reflexivity.
  - cbn [append contains]. rewrite IH. apply orb_true_r.
Qed.

Lemma contains_app_r (n x y : string) :
  contains n y = true -> contains n (x ++ y) = true.
Proof.
  intros H. destruct (contains_split _ _ H) as (u & v & ->).
  rewrite <- append_assoc. apply contains_app.
Qed.

Lemma contains_app_l (n x y : string) :
  contains n x = true -> contains n (x ++ y) = true.
Proof.
  intros H. destruct (contains_split _ _ H) as (u & v & ->).
  rewrite !append_assoc. apply contains_app.
Qed.

Lemma after_key_sound (t r : string) :
  last_match after_key t = Some r ->
  exists w, t = w ++ "}" ++ r /\ mem_char "}" r = false
            /\ contains ITEMS_KEY w = true.
Proof.
  revert r. induction t as [|c t IH]; intros r; cbn [last_match].
  - discriminate.
  - destruct (last_match after_key t) as [r'|] eqn:E.
    + intros H. injection H as <-. destruct (IH r' eq_refl) as (w & -> & Hr & Hw).
      exists (String c w). split; [reflexivity|]. split; [exact Hr|].
      cbn [contains]. rewrite Hw. apply orb_true_r.
    + unfold after_key.
      destruct (match_lit ITEMS_KEY (String c t)) as [v1|] eqn:Ek; [|discriminate].
      apply match_lit_spec in Ek. intros H.
      apply last_brace_sound in H as (u & -> & Hr).
      exists (ITEMS_KEY ++ u). rewrite Ek, append_assoc.
      split; [reflexivity|]. split; [exact Hr|].
      apply (contains_app ITEMS_KEY "" u).
Qed.

Lemma after_key_some (w r : string) :
  contains ITEMS_KEY w = true ->
  exists r', last_match after_key (w ++ "}" ++ r) = Some r'.
Proof.
  intros H. destruct (contains_split _ _ H) as (x & y & ->). clear H.
  rewrite !append_assoc. induction x as [|c x IH].
  - change ("" ++ ITEMS_KEY ++ y ++ "}" ++ r) with (ITEMS_KEY ++ y ++ "}" ++ r).
    destruct (ITEMS_KEY ++ y ++ "}" ++ r) as [|c t] eqn:E; [discriminate E|].
    cbn [last_match]. destruct (last_match after_key t) as [r'|]; [eauto|].
    rewrite <- E. unfold after_key.
    rewrite (proj2 (match_lit_spec ITEMS_KEY _ (y ++ "}" ++ r)) eq_refl).
    apply last_brace_some.
  - destruct IH as (r' & IH). exists r'. cbn [append] in IH |- *.
    cbn [last_match]. rewrite IH. reflexivity.
Qed.

Lemma after_key_complete (w r : string) :
  contains ITEMS_KEY w = true -> mem_char "}" r = false ->
  last_match after_key (w ++ "}" ++ r) = Some r.
Proof.
  intros Hw Hr. destruct (after_key_some w r Hw) as (r' & E). rewrite E.
  apply after_key_sound in E as (w' & E & Hr' & _).
  pose proof (last_brace_complete w r Hr) as E1.
  rewrite E, (last_brace_complete w' r' Hr') in E1. exact E1.
Qed.

(** ** The leftmost match *)

Lemma take_app_length (a b : string) :
  take (String.length (a ++ b) - String.length b) (a ++ b) = a.
Proof.
  rewrite append_length. replace (String.length a + String.length b
                                  - String.length b)%nat
    with (String.length a) by lia.
  induction a as [|c a IH]; cbn [append String.length take].
  - destruct b; reflexivity.
  - rewrite IH. reflexivity.
Qed.

Lemma first_items_sound (s m : string) : first_items s = Some m -> carved s m.
Proof.
  revert m. induction s as [|c s IH]; intros m; cbn [first_items].
  - discriminate.
  - destruct (items_at (String c s)) as [rest|] eqn:E.
    + intros H. injection H as <-. unfold items_at in E.
      destruct (match_lit "{" (String c s)) as [t|] eqn:Eb; [|discriminate E].
      apply match_lit_spec in Eb.
      apply after_key_sound in E as (w & -> & Hr & Hw).
      assert (Eq : String c s = ("{" ++ w ++ "}") ++ rest)
        by (rewrite Eb, !append_assoc; reflexivity).
      exists "", w, rest.
      split; [rewrite Eb; reflexivity|]. split; [|auto].
      unfold matched_text. rewrite Eq. apply take_app_length.
    + intros H. destruct (IH m H) as (pre & mid & post & -> & -> & Hpre & Hpost & Hmid).
      exists (String c pre), mid, post. split; [reflexivity|]. split; [reflexivity|].
      split; [|auto]. cbn [mem_char]. rewrite Hpre, orb_false_r.
      destruct (Ascii.eqb_spec "{"%char c) as [<-|]; [|reflexivity].
      exfalso. unfold items_at in E. cbn [match_lit] in E.
      change (Ascii.eqb "{" "{") with true in E. cbv iota in E.
      assert (Hw : contains ITEMS_KEY (pre ++ "{" ++ mid) = true).
      { apply contains_app_r. apply (contains_app_r ITEMS_KEY "{" mid Hmid). }
      destruct (after_key_some (pre ++ "{" ++ mid) post Hw) as (r' & Hr').
      rewrite !append_assoc in Hr'. cbn [append] in Hr', E.
      rewrite Hr' in E. discriminate E.
Qed.

Lemma first_items_complete (s m : string) : carved s m -> first_items s = Some m.
Proof.
  intros (pre & mid & post & -> & -> & Hpre & Hpost & Hmid).
  induction pre as [|c pre IH].
  - change ("" ++ "{" ++ mid ++ "}" ++ post) with (String "{" (mid ++ "}" ++ post)).
    cbn [first_items]. unfold items_at. cbn [match_lit].
    change (Ascii.eqb "{" "{") with true. cbv iota.
    rewrite (after_key_complete mid post Hmid Hpost).
    f_equal. unfold matched_text.
    assert (Eq : String "{" (mid ++ "}" ++ post) = ("{" ++ mid ++ "}") ++ post)
      by (rewrite !append_assoc; reflexivity).
    rewrite Eq. apply take_app_length.
  - cbn [mem_char] in Hpre. apply orb_false_elim in Hpre as (Hc & Hpre).
    change (String c pre ++ "{" ++ mid ++ "}" ++ post)
      with (String c (pre ++ "{" ++ mid ++ "}" ++ post)).
    cbn [first_items]. unfold items_at at 1. cbn [match_lit].
    rewrite Hc. exact (IH Hpre).
Qed.

Lemma re_search_sound (text object : string) :
  re_search ITEMS_RE text = Some object -> carved text object.
Proof.
  unfold re_search. rewrite search_from_items. apply first_items_sound.
Qed.

Lemma re_search_complete (text object : string) :
  carved text object -> re_search ITEMS_RE text = Some object.
Proof.
  unfold re_search. rewrite search_from_items. apply first_items_complete.
Qed.

(** X16 -- the search finds an object exactly when the text holds an opening
    brace, later the key [items] in quotes and later a closing brace;
    the object then runs from the first opening brace of the text to
    its last closing brace, whatever lies in between. *)
Theorem object_search_carves (text object : string) :
  re_search ITEMS_RE text = Some object <-> carved text object.
Proof.
  split; [apply re_search_sound|apply re_search_complete].
Qed.

Lemma carved_nonempty (text object : string) : carved text object -> text <> "".
Proof.
  intros (pre & mid & post & -> & _). destruct pre; discriminate.
Qed.

Lemma carved_has_key (text object : string) :
  carved text object ->
  mem_char "{" text = true /\ mem_char "}" text = true
  /\ contains ITEMS_KEY text = true.
Proof.
  intros (pre & mid & post & -> & _ & _ & _ & Hmid).
  assert (Hm : forall c a b, mem_char c (a ++ String c b) = true).
  { intros c a b. induction a as [|x a IH]; cbn [append mem_char].
    - rewrite Ascii.eqb_refl. reflexivity.
    - rewrite IH. apply orb_true_r. }
  split; [apply (Hm "{"%char pre (mid ++ "}" ++ post))|]. split.
  - replace (pre ++ "{" ++ mid ++ "}" ++ post)
      with ((pre ++ "{" ++ mid) ++ String "}" post)
      by (rewrite !append_assoc; reflexivity).
    apply Hm.
  - apply contains_app_r. apply (contains_app_r ITEMS_KEY "{").
    apply contains_app_l. exact Hmid.
Qed.

Lemma carved_object (pre mid post : string) :
  mem_char "{" pre = false -> mem_char "}" post = false ->
  contains ITEMS_KEY mid = true ->
  carved (pre ++ ("{" ++ mid ++ "}") ++ post) ("{" ++ mid ++ "}")
  /\ carved ("{" ++ mid ++ "}") ("{" ++ mid ++ "}").
Proof.
  intros Hpre Hpost Hmid. split.
  - exists pre, mid, post. repeat split; try assumption.
    rewrite !append_assoc. reflexivity.
  - exists "", mid, "". repeat split; assumption.
Qed.

(* ================================================================== *)
(** * The decoded object *)
(* ================================================================== *)






(* ================================================================== *)
(** * Prose around the object, and prose without one *)
(* ================================================================== *)

Lemma parse_string_output (DEBUG : bool) (text : string) (rest : dict) :
  text <> "" ->
  truthy (dict_get "error" rest VNone) = false ->
  parse_reddit_response DEBUG (("output", VStr text) :: rest)
  = ([], items <- extract_items (VStr text) ;; clean_items items).
Proof.
  intros Ht He. unfold parse_reddit_response.
  assert (E1 : dict_get "error" (("output", VStr text) :: rest) VNone
               = dict_get "error" rest VNone) by reflexivity.
  rewrite E1, He, andb_false_r.
  assert (E2 : find_output_text (("output", VStr text) :: rest) = Ok (VStr text)).
  { unfold find_output_text.
    change (output_text_of_output (("output", VStr text) :: rest))
      with (Ok (VStr text) : result pyval).
    cbn [bind truthy]. destruct text; [contradiction|reflexivity]. }
  rewrite E2. destruct text; [contradiction|reflexivity].
Qed.

(** X18 -- prose around the object is ignored: with no opening brace before
    the object and no closing brace after it, the result is that of the
    object alone. *)
Theorem surrounding_prose_is_ignored (DEBUG : bool) (pre mid post : string)
    (rest : dict) :
  mem_char "{" pre = false -> mem_char "}" post = false ->
  contains ITEMS_KEY mid = true ->
  truthy (dict_get "error" rest VNone) = false ->
  parse_reddit_response DEBUG
    (("output", VStr (pre ++ ("{" ++ mid ++ "}") ++ post)) :: rest)
  = parse_reddit_response DEBUG (("output", VStr ("{" ++ mid ++ "}")) :: rest).
Proof.
  intros Hpre Hpost Hmid He.
  destruct (carved_object pre mid post Hpre Hpost Hmid) as (C1 & C2).
  rewrite !parse_string_output;
    try assumption; try (eapply carved_nonempty; eassumption).
  unfold extract_items, search_items. cbn [bind].
  rewrite (re_search_complete _ _ C1), (re_search_complete _ _ C2). reflexivity.
Qed.

Lemma surrounding_prose_is_ignored_witness :
  parse_reddit_response false scenario_response
  = parse_reddit_response false
      [("output",
        VStr (qq ("{'items':[{'title':'T',"
                  ++ "'url':'https://reddit.com/r/x/comments/1/t/',"
                  ++ "'relevance':1.7}]}")))].
Proof.
  apply (surrounding_prose_is_ignored false "noise "
           (qq ("'items':[{'title':'T',"
                ++ "'url':'https://reddit.com/r/x/comments/1/t/','relevance':1.7}]"))
           " trailing" []); reflexivity.
Defined.

(** X19 -- a text without an opening brace, without a closing brace or without
    the key in quotes gives the empty list, and nothing is logged. *)
Theorem prose_without_object_gives_nothing (DEBUG : bool) (text : string)
    (rest : dict) :
  text <> "" ->
  truthy (dict_get "error" rest VNone) = false ->
  mem_char "{" text = false \/ mem_char "}" text = false
  \/ contains ITEMS_KEY text = false ->
  parse_reddit_response DEBUG (("output", VStr text) :: rest) = ([], Ok []).
Proof.
  intros Ht He Hno. rewrite parse_string_output by assumption.
  unfold extract_items, search_items. cbn [bind].
  destruct (re_search ITEMS_RE text) as [object|] eqn:Es; [|reflexivity].
  apply re_search_sound in Es.
  destruct (carved_has_key _ _ Es) as (H1 & H2 & H3).
  destruct Hno as [H|[H|H]]; congruence.
Qed.

Lemma prose_without_object_gives_nothing_witness :
  parse_reddit_response false
    [("output", VStr "I could not find any thread about this topic.")]
  = ([], Ok []).
Proof.
  apply prose_without_object_gives_nothing.
  - discriminate.
  - reflexivity.
  - left. reflexivity.
Defined.

(* ================================================================== *)
(** * Where an exception can come from *)
(* ================================================================== *)















(* ================================================================== *)
(** * The text is all that matters *)
(* ================================================================== *)

(** X21 -- without a true [error], the list returned depends on the response
    only through the text found in it: the shape the text came in
    ([output] as a string, as a list of messages, or the older
    [choices]) leaves no trace in the result. *)
Theorem result_depends_on_text_only (DEBUG : bool) (r1 r2 : dict) :
  no_error r1 -> no_error r2 ->
  find_output_text r1 = find_output_text r2 ->
  parsed DEBUG r1 = parsed DEBUG r2.
Proof.
  unfold no_error, parsed, parse_reddit_response. intros -> -> ->.
  destruct (find_output_text r2) as [text|]; [|reflexivity].
  destruct (negb (truthy text)); reflexivity.
Qed.

Lemma result_depends_on_text_only_witness :
  parsed false
    [ ("choices",
       VList [ VDict [ ("message", VDict [ ("content", VStr scenario_text) ]) ] ]) ]
  = parsed false scenario_response.
Proof.
  apply result_depends_on_text_only; reflexivity.
Defined.

(** X22 -- a response with neither [output] nor [choices], and no true
    [error], gives the empty list and one warning that names the keys
    of the response, in their order. *)
Theorem empty_response_warns (DEBUG : bool) (response : dict) :
  no_error response ->
  dict_lookup "output" response = None ->
  dict_lookup "choices" response = None ->
  parse_reddit_response DEBUG response
  = ([NoOutputTextWarned (dict_keys response)], Ok []).
Proof.
  unfold no_error. intros He Ho Hc. unfold parse_reddit_response. rewrite He.
  unfold find_output_text, output_text_of_output, dict_mem. rewrite Ho, Hc.
  reflexivity.
Qed.

Lemma empty_response_warns_witness :
  parse_reddit_response false [ ("id", VStr "resp_1"); ("status", VStr "completed") ]
  = ([NoOutputTextWarned ["id"; "status"]], Ok []).
Proof.
  apply (empty_response_warns false
           [ ("id", VStr "resp_1"); ("status", VStr "completed") ]); reflexivity.
Defined.

(* ================================================================== *)
(** * An object that does not decode *)
(* ================================================================== *)



(* ================================================================== *)
(** * Entries that are passed over *)
(* ================================================================== *)

Lemma foreign_entry_skipped (i : nat) (item : pyval) :
  foreign_entry item -> clean_entry i item = Ok None.
Proof.
  intros [Hd|(d & -> & [Hu|(s & Hu & Hc)])].
  - destruct item; try reflexivity. discriminate Hd.
  - cbn [clean_entry]. rewrite Hu. reflexivity.
  - cbn [clean_entry]. rewrite Hu.
    destruct (negb (truthy (VStr s))); [reflexivity|].
    cbn [py_in bind]. rewrite Hc. reflexivity.
Qed.

(** X24 -- an entry that is passed over is not looked at any further: a list
    of entries that are no mappings, have no true url, or have a
    string url without the domain, gives the empty list and raises
    nothing, whatever their other fields hold; the relevance is not
    converted. *)
Theorem foreign_entries_are_skipped (i : nat) (entries : list pyval) :
  Forall foreign_entry entries -> clean_loop i entries = Ok [].
Proof.
  intros H. revert i. induction H as [|item entries Hitem _ IH]; intros i.
  - reflexivity.
  - cbn [clean_loop]. rewrite (foreign_entry_skipped i item Hitem). cbn [bind].
    rewrite IH. reflexivity.
Qed.

Lemma foreign_entries_are_skipped_witness :
  clean_loop 0
    [ VStr "reddit.com";
      VDict [("relevance", VStr "high")];
      VDict [("url", VStr "https://example.com/a"); ("relevance", VNone)] ]
  = Ok [].
Proof.
  apply foreign_entries_are_skipped.
  apply Forall_cons; [|apply Forall_cons; [|apply Forall_cons; [|apply Forall_nil]]].
  - left. reflexivity.
  - right. eexists. split; [reflexivity|]. left. reflexivity.
  - right. eexists. split; [reflexivity|]. right. eexists. split; reflexivity.
Defined.
